(** * evtrack, UI module (trackui.js): a shallow embedding of [TrackUI]

    The page-side tracker listens to browser events, keeps the rows it
    records in the array [TrackUI.info], and posts them to the server:
    once with an "init" request, whose answer is the user id, and then
    with "append" requests carrying that id.

    The JavaScript object [TrackUI] is a record; each method is a
    function on the page state.  What the methods ask of the browser
    (timers, the XHR transport, the clock, the document metrics) is kept
    in the same state or handed in with the event that makes them run. *)

From Stdlib Require Import ZArith List String Ascii Bool Lia.
From Stdlib Require Import DecimalPos DecimalString.
Import ListNotations.
Open Scope string_scope.
Open Scope Z_scope.

(** ** The JavaScript values the module relies on *)

Module JS.

(** A number as [TrackUI.uid] can hold it: an integer that is a double,
    [NaN], or an infinity.  Every integer up to 2^53 in size is a
    double; beyond, [parseInt] rounds to the nearest one. *)
Inductive number : Type :=
| Num (z : Z)
| NaN
| Infinity (negative : bool).

(** [ToBoolean] on a number: [0] and [NaN] are false. *)
Definition truthy (n : number) : bool :=
  match n with
  | Num z => negb (z =? 0)
  | NaN => false
  | Infinity _ => true
  end.

(** Decimal rendering of an integer that is at most 2^53 in size, as
    [""+n] gives it. *)
Definition showZ (z : Z) : string := NilEmpty.string_of_int (Z.to_int z).

Definition twoTo53 : Z := 9007199254740992.

(** The integer nearest to [z] among the doubles, a tie going to the
    even mantissa; [None] when it is beyond the largest double. *)
Definition roundDouble (z : Z) : option Z :=
  let a := Z.abs z in
  if a <=? twoTo53 then Some z
  else
    let e := Z.log2 a - 52 in
    let q := Z.shiftr a e in
    let r := a - Z.shiftl q e in
    let half := Z.shiftl 1 (e - 1) in
    let q' := if (half <? r) || ((r =? half) && Z.odd q) then q + 1 else q in
    let v := Z.shiftl q' e in
    if Z.shiftl 1 1024 <=? v then None else Some (Z.sgn z * v).

(** [Number::toString] on a double [v] above 2^53: the shortest digits
    [s], [k] of them, such that [s * 10^(n-k)] rounds to [v], the
    nearest to [v] if two do.  [shortestAt] tries [k] digits. *)
Definition roundsTo (v c : Z) : bool :=
  match roundDouble c with
  | Some w => w =? v
  | None => false
  end.

Definition shortestAt (v n k : Z) : option Z :=
  let scale := 10 ^ (n - k) in
  let lo := v / scale in
  let hi := lo + 1 in
  if roundsTo v (lo * scale) && roundsTo v (hi * scale) then
    if v - lo * scale <? hi * scale - v then Some lo
    else if hi * scale - v <? v - lo * scale then Some hi
    else if Z.even lo then Some lo else Some hi
  else if roundsTo v (lo * scale) then Some lo
  else if roundsTo v (hi * scale) then Some hi
  else None.

Fixpoint shortest (tries : nat) (v n k : Z) : Z * Z :=
  match tries with
  | O => (v, n)
  | S tries' =>
      match shortestAt v n k with
      | Some s => (s, k)
      | None => shortest tries' v n (k + 1)
      end
  end.

Fixpoint zeros (n : nat) : string :=
  match n with
  | O => EmptyString
  | S n' => String "0" (zeros n')
  end.

(** The digits, then zeros up to [n] figures when [n <= 21], the
    exponent form otherwise. *)
Definition showDouble (v : Z) : string :=
  let n := Z.of_nat (String.length (showZ v)) in
  let (s, k) := shortest 17 v n 1 in
  let '(s, k, n) := if s =? 10 ^ k then (1, 1, n + 1) else (s, k, n) in
  if n <=? 21 then showZ s ++ zeros (Z.to_nat (n - k))
  else
    match showZ s with
    | String d EmptyString => String d ("e+" ++ showZ (n - 1))
    | String d rest => String d ("." ++ rest ++ "e+" ++ showZ (n - 1))
    | EmptyString => EmptyString
    end.

(** [""+n] on a number. *)
Definition toString (n : number) : string :=
  match n with
  | Num z =>
      if Z.abs z <=? twoTo53 then showZ z
      else if z <? 0 then String "-" (showDouble (- z))
      else showDouble z
  | NaN => "NaN"
  | Infinity negative => if negative then "-Infinity" else "Infinity"
  end.

(** A value that may be [undefined] (or [NaN]): both are false as a
    condition and both turn a sum into [NaN]. *)
Definition value : Type := option Z.

Definition valTruthy (v : value) : bool :=
  match v with
  | Some z => negb (z =? 0)
  | None => false
  end.

Definition plus (a b : value) : value :=
  match a, b with
  | Some x, Some y => Some (x + y)
  | _, _ => None
  end.

(** [Array.prototype.toString]: the elements joined by a comma. *)
Definition arrayToString (rows : list string) : string :=
  String.concat "," rows.

(** *** [parseInt(string)], called without a radix

    White space is skipped, then an optional sign, then an optional
    [0x]/[0X] (which selects radix 16); the longest run of digits of
    the radix is the number, rounded to a double, and no digit at all
    gives [NaN].  (An engine may read the decimal digits after the
    20th as zeros; the rounding here is that of the digits as they
    are.  A string is a sequence of characters of code 0 to
    255; the white space among them is TAB, LF, VT, FF, CR, SP and the
    no-break space, 160.) *)

Definition code (c : ascii) : Z := Z.of_nat (nat_of_ascii c).

Definition isWhiteSpace (c : ascii) : bool :=
  let n := code c in ((9 <=? n) && (n <=? 13)) || (n =? 32) || (n =? 160).

Fixpoint trimStart (s : string) : string :=
  match s with
  | String c s' => if isWhiteSpace c then trimStart s' else s
  | EmptyString => EmptyString
  end.

Definition digitVal (c : ascii) : option Z :=
  let n := code c in
  if (48 <=? n) && (n <=? 57) then Some (n - 48)
  else if (97 <=? n) && (n <=? 122) then Some (n - 87)
  else if (65 <=? n) && (n <=? 90) then Some (n - 55)
  else None.

(** The values of the longest prefix of [s] made of digits of radix [R]. *)
Fixpoint digits (R : Z) (s : string) : list Z :=
  match s with
  | String c s' =>
      match digitVal c with
      | Some d => if d <? R then d :: digits R s' else []
      | None => []
      end
  | EmptyString => []
  end.

Definition mathInt (R : Z) (ds : list Z) : Z :=
  fold_left (fun acc d => acc * R + d) ds 0.

(** The sign and what follows it. *)
Definition signOf (s : string) : Z * string :=
  match s with
  | String "-" r => (-1, r)
  | String "+" r => (1, r)
  | _ => (1, s)
  end.

(** The radix and what follows the [0x] prefix, if there is one. *)
Definition radixOf (s : string) : Z * string :=
  match s with
  | String "0" (String "x" r) => (16, r)
  | String "0" (String "X" r) => (16, r)
  | _ => (10, s)
  end.

Definition parseInt (s : string) : number :=
  let (sign, s1) := signOf (trimStart s) in
  let (R, s2) := radixOf s1 in
  match digits R s2 with
  | [] => NaN
  | ds =>
      match roundDouble (sign * mathInt R ds) with
      | Some v => Num v
      | None => Infinity (sign <? 0)
      end
  end.

(** The global [escape]: letters, digits and [@*_+-./] are kept, any
    other character becomes [%XX], its code in two hexadecimal digits.
    (A string is a sequence of bytes here, so there is no [%uXXXX].) *)
Definition unescaped (c : ascii) : bool :=
  let n := code c in
  ((48 <=? n) && (n <=? 57)) || ((65 <=? n) && (n <=? 90))
  || ((97 <=? n) && (n <=? 122))
  || (n =? 64) || (n =? 42) || (n =? 95) || (n =? 43) || (n =? 45)
  || (n =? 46) || (n =? 47).

Definition hexDigit (n : nat) : ascii :=
  ascii_of_nat (if Nat.ltb n 10 then 48 + n else 55 + n).

Fixpoint escape (s : string) : string :=
  match s with
  | String c s' =>
      if unescaped c then String c (escape s')
      else String "%" (String (hexDigit (nat_of_ascii c / 16))
                        (String (hexDigit (nat_of_ascii c mod 16)) (escape s')))
  | EmptyString => EmptyString
  end.

(** The digits of a decimal numeral, the most significant first. *)
Fixpoint uintDigits (d : Decimal.uint) : list Z :=
  match d with
  | Decimal.Nil => []
  | Decimal.D0 l => 0 :: uintDigits l
  | Decimal.D1 l => 1 :: uintDigits l
  | Decimal.D2 l => 2 :: uintDigits l
  | Decimal.D3 l => 3 :: uintDigits l
  | Decimal.D4 l => 4 :: uintDigits l
  | Decimal.D5 l => 5 :: uintDigits l
  | Decimal.D6 l => 6 :: uintDigits l
  | Decimal.D7 l => 7 :: uintDigits l
  | Decimal.D8 l => 8 :: uintDigits l
  | Decimal.D9 l => 9 :: uintDigits l
  end.

Fixpoint allWhiteSpace (s : string) : bool :=
  match s with
  | String c s' => isWhiteSpace c && allWhiteSpace s'
  | EmptyString => true
  end.

(** Whether the first character is a decimal digit. *)
Definition startsWithDigit (s : string) : bool :=
  match s with
  | String c _ => let n := code c in (48 <=? n) && (n <=? 57)
  | EmptyString => false
  end.

End JS.

Import JS.

(** ** The data of the tracker *)

(** [TrackUI.settings]. *)
Record Settings : Type := {
  postServer : string;
  postInterval : Z;
  samplingFreq : Z;
  taskName : string;
  layoutType : string
}.

(** The object handed to [TrackUI.record]; [None] stands for a property
    that is absent or [null]. *)
Record Config : Type := {
  cfgPostServer : option string;
  cfgPostInterval : option Z;
  cfgSamplingFreq : option Z;
  cfgTaskName : option string;
  cfgLayoutType : option string
}.

(** The request object given to [TrackUI.send].  [callback] tells whether
    the request carries [callback: TrackUI.setUserId]. *)
Record Request : Type := {
  url : option string;
  async : bool;
  postdata : string;
  callback : bool
}.

(** What a handler reads from the browser while it runs: the clock
    ([new Date().getTime()]), the location, and the sizes and scroll
    offsets of screen, window and document. *)
Record Host : Type := {
  getTime : Z;
  href : string;
  screenWidth : Z;
  screenHeight : Z;
  winWidth : Z;
  winHeight : Z;
  docWidth : Z;
  docHeight : Z;
  bodyScrollLeft : Z;
  docScrollLeft : Z;
  bodyScrollTop : Z;
  docScrollTop : Z
}.

(** The result of [getMousePos]. *)
Record Pos : Type := { x : Z; y : Z }.

(** The object [TrackUI] ([settings], [uid], [time], [info]) together
    with what it has asked of the browser: the delays of the pending
    [setTimeout] calls, the periods of the running [setInterval] calls,
    the number of asynchronous requests whose callback is still due, and
    the requests handed to the transport (oldest first). *)
Record Page : Type := {
  settings : Settings;
  uid : number;
  time : Z;
  info : list string;
  timeouts : list Z;
  intervals : list Z;
  awaiting : nat;
  sent : list Request
}.

Definition defaults : Settings := {|
  postServer := "http://my.server.org/save.script";
  postInterval := 30;
  samplingFreq := 10;
  taskName := "evtrack";
  layoutType := "liquid"
|}.

(** The page once the script is loaded, at time [t0]: nothing recorded,
    nothing asked of the browser. *)
Definition loaded (t0 : Z) : Page := {|
  settings := defaults;
  uid := Num 0;
  time := t0;
  info := [];
  timeouts := [];
  intervals := [];
  awaiting := 0%nat;
  sent := []
|}.

Definition setSettings (s : Settings) (p : Page) : Page :=
  {| settings := s; uid := uid p; time := time p; info := info p;
     timeouts := timeouts p; intervals := intervals p;
     awaiting := awaiting p; sent := sent p |}.

Definition setUid (n : number) (p : Page) : Page :=
  {| settings := settings p; uid := n; time := time p; info := info p;
     timeouts := timeouts p; intervals := intervals p;
     awaiting := awaiting p; sent := sent p |}.

Definition setTime (t : Z) (p : Page) : Page :=
  {| settings := settings p; uid := uid p; time := t; info := info p;
     timeouts := timeouts p; intervals := intervals p;
     awaiting := awaiting p; sent := sent p |}.

Definition setInfo (rows : list string) (p : Page) : Page :=
  {| settings := settings p; uid := uid p; time := time p; info := rows;
     timeouts := timeouts p; intervals := intervals p;
     awaiting := awaiting p; sent := sent p |}.

Definition setTimeouts (ts : list Z) (p : Page) : Page :=
  {| settings := settings p; uid := uid p; time := time p; info := info p;
     timeouts := ts; intervals := intervals p;
     awaiting := awaiting p; sent := sent p |}.

Definition setIntervals (ts : list Z) (p : Page) : Page :=
  {| settings := settings p; uid := uid p; time := time p; info := info p;
     timeouts := timeouts p; intervals := ts;
     awaiting := awaiting p; sent := sent p |}.

Definition setAwaiting (n : nat) (p : Page) : Page :=
  {| settings := settings p; uid := uid p; time := time p; info := info p;
     timeouts := timeouts p; intervals := intervals p;
     awaiting := n; sent := sent p |}.

Definition setSent (rs : list Request) (p : Page) : Page :=
  {| settings := settings p; uid := uid p; time := time p; info := info p;
     timeouts := timeouts p; intervals := intervals p;
     awaiting := awaiting p; sent := rs |}.

(** [setTimeout(f, delay)] and [setInterval(f, period)]: the only
    function ever given to the first is [initNewData(true)], to the
    second [appendData(true)]. *)
Definition setTimeout (delay : Z) (p : Page) : Page :=
  setTimeouts (timeouts p ++ [delay]) p.

Definition setInterval (period : Z) (p : Page) : Page :=
  setIntervals (intervals p ++ [period]) p.

(** ** The methods of [TrackUI] *)

Section Tracker.

(** The nodes of the document and [TrackLib.XPath.getXPath], which is
    in tracklib.js: the tracker only moves its result around. *)
Context {Node : Type} (getXPath : Node -> string).

(** An event (or a touch of a touch event) as the handlers read it:
    the cursor id, the event name, the coordinates and the target. *)
Record DomEvent : Type := {
  id : Z;
  type : string;
  pageX : value;
  pageY : value;
  clientX : value;
  clientY : value;
  target : Node
}.

(** A touch event: its name and [changedTouches], each touch with the
    state of the browser at the moment the loop handles it. *)
Record TouchEvent : Type := {
  touchType : string;
  changedTouches : option (list (Host * DomEvent))
}.

(** Modelled from the spec: [TrackLib.Events.fix] is in tracklib.js,
    which is not among the sources.  An event is taken as [fix]
    returns it, with [id] the cursor id (0 for an event that is not a
    touch), so that fixing it again changes nothing.  ([fix] is a
    reserved word here, hence the name.) *)
Definition fixEvent (e : DomEvent) : DomEvent := e.

Definition setType (ty : string) (e : DomEvent) : DomEvent :=
  {| id := id e; type := ty; pageX := pageX e; pageY := pageY e;
     clientX := clientX e; clientY := clientY e; target := target e |}.

(** [if (!c || c < 0) c = 0]. *)
Definition clamp (c : value) : Z :=
  match c with
  | Some z => if (z =? 0) || (z <? 0) then 0 else z
  | None => 0
  end.

Definition getMousePos (h : Host) (e : DomEvent) : Pos :=
  let e := fixEvent e in
  let '(cx, cy) :=
    if valTruthy (pageX e) || valTruthy (pageY e) then
      (pageX e, pageY e)
    else if valTruthy (clientX e) || valTruthy (clientY e) then
      (plus (plus (clientX e) (Some (bodyScrollLeft h))) (Some (docScrollLeft h)),
       plus (plus (clientY e) (Some (bodyScrollTop h))) (Some (docScrollTop h)))
    else (Some 0, Some 0) in
  {| x := clamp cx; y := clamp cy |}.

Definition findElement (e : DomEvent) : string :=
  let e := fixEvent e in
  getXPath (target e).

Definition fillInfo (id time : Z) (pos : Pos) (event element : string)
    (p : Page) : Page :=
  setInfo (info p ++ [showZ id ++ " " ++ showZ time ++ " " ++ showZ (x pos)
                      ++ " " ++ showZ (y pos) ++ " " ++ event ++ " " ++ element]) p.

Definition eventHandler (h : Host) (e : DomEvent) (p : Page) : Page :=
  let e := fixEvent e in
  let coords := getMousePos h e in
  let element := findElement e in
  let timeNow := getTime h in
  let register :=
    if 0 <? samplingFreq (settings p)
    then samplingFreq (settings p) <=? timeNow - time p
    else true in
  if register then
    setTime timeNow (fillInfo (id e) timeNow coords (type e) element p)
  else p.

Definition mouseHandler := eventHandler.
Definition keyHandler := eventHandler.
Definition winHandler := eventHandler.

Definition touchHandler (e : TouchEvent) (p : Page) : Page :=
  match changedTouches e with
  | Some touches =>
      fold_left
        (fun p (ht : Host * DomEvent) =>
           let (h, touch) := ht in
           let touch := setType (touchType e) touch in
           eventHandler h touch p)
        touches p
  | None => p
  end.

Definition setUserId (response : string) (p : Page) : Page :=
  let p := setUid (parseInt response) p in
  if truthy (uid p) then setInterval (postInterval (settings p) * 1000) p
  else p.

(** Modelled from the spec: [TrackLib.XHR.sendAjaxRequest] is in
    tracklib.js, which is not among the sources.  It sends the payload,
    synchronously or not, with an optional completion callback.  The
    request joins [sent].  An asynchronous request with a callback is
    awaited; a synchronous one is over when the call returns: [reply]
    is the response text it got, if any, and the callback runs on it
    before the call returns.  A request that fails gets no callback. *)
Definition sendAjaxRequest (reply : option string) (req : Request)
    (p : Page) : Page :=
  let p := setSent (sent p ++ [req]) p in
  if callback req then
    if async req then setAwaiting (S (awaiting p)) p
    else match reply with
         | Some response => setUserId response p
         | None => p
         end
  else p.

Definition send (reply : option string) (req : Request) (p : Page) : Page :=
  let req := {| url := Some (postServer (settings p)); async := async req;
                postdata := postdata req; callback := callback req |} in
  sendAjaxRequest reply req p.

Definition initNewData (h : Host) (async : bool) (reply : option string)
    (p : Page) : Page :=
  let data := "url=" ++ escape (href h) in
  let data := data ++ "&screenw=" ++ showZ (screenWidth h) in
  let data := data ++ "&screenh=" ++ showZ (screenHeight h) in
  let data := data ++ "&winw=" ++ showZ (winWidth h) in
  let data := data ++ "&winh=" ++ showZ (winHeight h) in
  let data := data ++ "&docw=" ++ showZ (docWidth h) in
  let data := data ++ "&doch=" ++ showZ (docHeight h) in
  let data := data ++ "&info=" ++ arrayToString (info p) in
  let data := data ++ "&task=" ++ taskName (settings p) in
  let data := data ++ "&layout=" ++ layoutType (settings p) in
  let data := data ++ "&action=" ++ "init" in
  let p := send reply {| url := None; async := async; postdata := data;
                         callback := true |} p in
  setInfo [] p.

Definition appendData (async : bool) (reply : option string) (p : Page) : Page :=
  let data := "uid=" ++ toString (uid p) in
  let data := data ++ "&info=" ++ arrayToString (info p) in
  let data := data ++ "&action=" ++ "append" in
  let p := send reply {| url := None; async := async; postdata := data;
                         callback := false |} p in
  setInfo [] p.

Definition flush (h : Host) (reply : option string) (p : Page) : Page :=
  if truthy (uid p) then appendData false reply p
  else initNewData h false reply p.

Definition override {A : Type} (new : option A) (old : A) : A :=
  match new with
  | Some v => v
  | None => old
  end.

(** [record(config)]: the settings are overridden, the handlers are
    registered (the events below are theirs), the first post is
    deferred by [postInterval] seconds, and [flush] waits for the
    unloading of the page. *)
Definition record (config : Config) (p : Page) : Page :=
  let s := settings p in
  let p := setSettings
             {| postServer := override (cfgPostServer config) (postServer s);
                postInterval := override (cfgPostInterval config) (postInterval s);
                samplingFreq := override (cfgSamplingFreq config) (samplingFreq s);
                taskName := override (cfgTaskName config) (taskName s);
                layoutType := override (cfgLayoutType config) (layoutType s) |} p in
  setTimeout (postInterval (settings p) * 1000) p.

(** ** The page visit

    What the browser can make happen once [record] has run: an event
    reaches its handler, the deferred first post or a periodic post
    comes due, an awaited request is answered or fails, the unload
    handler runs.  Timers may come due in any order and at any time; a
    request is answered at most once.  [flush] stops no timer and the
    handler may be the one of [beforeunload], which the user can cancel:
    the page may live on after it, and a run goes on for as long as the
    page does. *)
Inductive Event : Type :=
| Dom (h : Host) (e : DomEvent)
| Touch (e : TouchEvent)
| TimeoutFires (h : Host)
| IntervalFires
| Response (responseText : string)
| NoResponse
| Unload (h : Host) (reply : option string).

Definition exec (p : Page) (ev : Event) : option Page :=
  match ev with
  | Dom h e => Some (eventHandler h e p)
  | Touch e => Some (touchHandler e p)
  | TimeoutFires h =>
      match timeouts p with
      | _ :: rest => Some (initNewData h true None (setTimeouts rest p))
      | [] => None
      end
  | IntervalFires =>
      match intervals p with
      | _ :: _ => Some (appendData true None p)
      | [] => None
      end
  | Response r =>
      match awaiting p with
      | S n => Some (setUserId r (setAwaiting n p))
      | O => None
      end
  | NoResponse =>
      match awaiting p with
      | S n => Some (setAwaiting n p)
      | O => None
      end
  | Unload h reply => Some (flush h reply p)
  end.

Fixpoint run (p : Page) (evs : list Event) : option Page :=
  match evs with
  | [] => Some p
  | ev :: rest =>
      match exec p ev with
      | Some p' => run p' rest
      | None => None
      end
  end.

(** The visit starts when [record(config)] is called, once, on the
    loaded page. *)
Definition start (t0 : Z) (config : Config) : Page :=
  record config (loaded t0).

(** The pages of the visits in which [record] is called once: any
    events may follow, also after the unload handler has run. *)
Definition reachable (p : Page) : Prop :=
  exists t0 config evs, run (start t0 config) evs = Some p.






Definition isUnload (ev : Event) : bool :=
  match ev with
  | Unload _ _ => true
  | _ => false
  end.

(** *** The notions the properties are stated with *)

(** The row [fillInfo] pushes for an event handled in host state [h]:
    the six fields joined by a space. *)
Definition row (h : Host) (e : DomEvent) : string :=
  String.concat " "
    [showZ (id e); showZ (getTime h); showZ (x (getMousePos h e));
     showZ (y (getMousePos h e)); type e; getXPath (target e)].

(** The page after the event has been recorded. *)
Definition kept (h : Host) (e : DomEvent) (p : Page) : Page :=
  setTime (getTime h) (setInfo (info p ++ [row h e]) p).

(** The sampling gate: whether an event at [timeNow] is recorded. *)
Definition accepts (p : Page) (timeNow : Z) : bool :=
  if 0 <? samplingFreq (settings p)
  then samplingFreq (settings p) <=? timeNow - time p
  else true.

(** The events of a sequence that pass the gate, the clock moving to
    each one that does. *)
Fixpoint recorded (freq last : Z) (es : list (Host * DomEvent))
    : list (Host * DomEvent) :=
  match es with
  | [] => []
  | (h, e) :: rest =>
      if (if 0 <? freq then freq <=? getTime h - last else true)
      then (h, e) :: recorded freq (getTime h) rest
      else recorded freq last rest
  end.

(** The two payloads, for the rows [rows] of the buffer. *)
Definition initPayload (h : Host) (s : Settings) (rows : list string) : string :=
  "url=" ++ escape (href h)
  ++ "&screenw=" ++ showZ (screenWidth h)
  ++ "&screenh=" ++ showZ (screenHeight h)
  ++ "&winw=" ++ showZ (winWidth h)
  ++ "&winh=" ++ showZ (winHeight h)
  ++ "&docw=" ++ showZ (docWidth h)
  ++ "&doch=" ++ showZ (docHeight h)
  ++ "&info=" ++ String.concat "," rows
  ++ "&task=" ++ taskName s
  ++ "&layout=" ++ layoutType s
  ++ "&action=init".

Definition appendPayload (u : number) (rows : list string) : string :=
  "uid=" ++ toString u ++ "&info=" ++ String.concat "," rows ++ "&action=append".

(** The two requests as the transport receives them. *)
Definition initRequest (h : Host) (a : bool) (s : Settings) (rows : list string)
    : Request :=
  {| url := Some (postServer s); async := a;
     postdata := initPayload h s rows; callback := true |}.

Definition appendRequest (a : bool) (s : Settings) (u : number)
    (rows : list string) : Request :=
  {| url := Some (postServer s); async := a;
     postdata := appendPayload u rows; callback := false |}.

(** A sequence of events handled one after the other, and the same as
    events of the visit. *)
Definition handleAll (es : list (Host * DomEvent)) (p : Page) : Page :=
  fold_left (fun p he => eventHandler (fst he) (snd he) p) es p.

Definition domEvents (es : list (Host * DomEvent)) : list Event :=
  map (fun he => Dom (fst he) (snd he)) es.

Definition rowOf (he : Host * DomEvent) : string := row (fst he) (snd he).

(** The touches of a touch event as the loop hands them on: each one
    named after the event. *)
Definition touchesOf (e : TouchEvent) : list (Host * DomEvent) :=
  match changedTouches e with
  | Some touches => map (fun ht => (fst ht, setType (touchType e) (snd ht))) touches
  | None => []
  end.



(** Where a visit stands before [flush] first runs: the first post is
    still deferred; or its answer is pending; or it has been answered
    (or has failed), and then a periodic post runs only if an id is
    known. *)
Inductive phase (p : Page) : Prop :=
| Deferred (d : Z) :
    timeouts p = [d] -> awaiting p = 0%nat ->
    intervals p = [] -> uid p = Num 0 -> phase p
| Pending :
    timeouts p = [] -> awaiting p = 1%nat ->
    intervals p = [] -> uid p = Num 0 -> phase p
| Answered :
    timeouts p = [] -> awaiting p = 0%nat ->
    (truthy (uid p) = false -> intervals p = []) -> phase p.


End Tracker.

(** ** What a visit has recorded and handed over *)

Section Visits.

Context {Node : Type} (getXPath : Node -> string).

(** The clock readings of a sequence of events. *)
Definition times (es : list (Host * @DomEvent Node)) : list Z :=
  map (fun he => getTime (fst he)) es.

(** Readings that start at least [freq] after [last] and are at least
    [freq] apart. *)
Fixpoint spaced (freq last : Z) (ts : list Z) : Prop :=
  match ts with
  | [] => True
  | t :: rest => freq <= t - last /\ spaced freq t rest
  end.

(** The rows of [q] beyond those of [p]. *)
Definition added (p q : Page) : list string :=
  skipn (List.length (info p)) (info q).

(** The rows the handler of an event pushes. *)
Definition pushed (p : Page) (ev : Event) : list string :=
  match ev with
  | Dom h e => added p (eventHandler getXPath h e p)
  | Touch e => added p (touchHandler getXPath e p)
  | _ => []
  end.

(** The rows pushed in the course of a run, in order. *)
Fixpoint trail (p : Page) (evs : list Event) : list string :=
  match evs with
  | [] => []
  | ev :: rest =>
      match exec getXPath p ev with
      | Some p' => (pushed p ev ++ trail p' rest)%list
      | None => []
      end
  end.

(** The events of the capture path: those that reach [eventHandler]. *)
Definition isCapture (ev : @Event Node) : bool :=
  match ev with
  | Dom _ _ => true
  | Touch _ => true
  | _ => false
  end.

(** A request whose payload carries the rows [rows] in its [info] field. *)
Definition carries (r : Request) (rows : list string) : Prop :=
  (exists h s, postdata r = initPayload h s rows) \/
  (exists u, postdata r = appendPayload u rows).

(** The number of init requests: those with the [setUserId] callback. *)
Definition inits (rs : list Request) : nat :=
  List.length (filter callback rs).

(** The default settings with the keys of [config] over them. *)
Definition merged (config : Config) : Settings := {|
  postServer := override (cfgPostServer config) (postServer defaults);
  postInterval := override (cfgPostInterval config) (postInterval defaults);
  samplingFreq := override (cfgSamplingFreq config) (samplingFreq defaults);
  taskName := override (cfgTaskName config) (taskName defaults);
  layoutType := override (cfgLayoutType config) (layoutType defaults)
|}.

(** The delay of the deferred post and the period of the periodic one. *)
Definition period (p : Page) : Z := postInterval (settings p) * 1000.

(** The timers and the awaited answer of a page in order: at most the
    one deferred post, at most one answer awaited, and the periodic post
    running, once, exactly when an id is known. *)
Definition timersInStep (p : Page) : Prop :=
  (timeouts p = [] \/ timeouts p = [period p]) /\
  (awaiting p <= 1)%nat /\
  intervals p = if truthy (uid p) then [period p] else [].

(** The number of synchronous requests, and of runs of [flush]. *)
Definition syncs (rs : list Request) : nat :=
  List.length (filter (fun r => negb (async r)) rs).

Definition unloads (evs : list (@Event Node)) : nat :=
  List.length (filter isUnload evs).

End Visits.

(** ** A small page, for the examples

    Nodes are named by their path; the server posts to the default
    address. *)

Definition pathOf (n : string) : string := n.

(** The browser at time [t]: a 1280x720 screen, nothing scrolled. *)
Definition hostAt (t : Z) : Host := {|
  getTime := t;
  href := "http://site.org/page?a=1";
  screenWidth := 1280; screenHeight := 720;
  winWidth := 1024; winHeight := 600;
  docWidth := 1024; docHeight := 2000;
  bodyScrollLeft := 0; docScrollLeft := 0;
  bodyScrollTop := 0; docScrollTop := 0
|}.

Definition mouseMove (px py : Z) : DomEvent := {|
  id := 0; type := "mousemove";
  pageX := Some px; pageY := Some py;
  clientX := Some px; clientY := Some py;
  target := "/html/body/div"
|}.

(** The touch of finger [i] at [(px, py)]; the touch event gives it its
    name. *)
Definition finger (i px py : Z) : DomEvent := {|
  id := i; type := "";
  pageX := Some px; pageY := Some py;
  clientX := Some px; clientY := Some py;
  target := "/html/body/div"
|}.

Definition twoFingers (t : Z) : TouchEvent := {|
  touchType := "touchmove";
  changedTouches := Some [(hostAt t, finger 0 10 20); (hostAt t, finger 1 30 40)]
|}.

Definition noConfig : Config := {|
  cfgPostServer := None; cfgPostInterval := None; cfgSamplingFreq := None;
  cfgTaskName := None; cfgLayoutType := None
|}.

Definition withSampling (freq : Z) : Config := {|
  cfgPostServer := None; cfgPostInterval := None; cfgSamplingFreq := Some freq;
  cfgTaskName := None; cfgLayoutType := None
|}.

(** A visit with the default settings, the script loaded at time 0, and
    the page it leaves. *)
Definition after (evs : list (@Event string)) : Page :=
  match run pathOf (start 0 noConfig) evs with
  | Some p => p
  | None => loaded 0
  end.

(** One move, then the deferred post: its answer is due. *)
Definition firstPost : list (@Event string) :=
  [Dom (hostAt 29000) (mouseMove 3 4); TimeoutFires (hostAt 30000)].

Definition pendingPage : Page := Eval vm_compute in after firstPost.

(** The server answers "42", "0". *)
Definition establishedPage : Page := Eval vm_compute in
  after (firstPost ++ [Response "42"]).


(** Two more moves once the id 42 is known. *)
Definition twoRowsPage : Page := Eval vm_compute in
  after (firstPost ++ [Response "42"; Dom (hostAt 31000) (mouseMove 5 6);
                       Dom (hostAt 32000) (mouseMove 7 8)]).
(** A touch event without [changedTouches]. *)
Definition noTouches : @TouchEvent string := {|
  touchType := "touchend";
  changedTouches := None
|}.

(** A whole visit: the id 42 comes back, two more moves, the unload. *)
Definition wholeVisit : list (@Event string) :=
  (firstPost ++ [Response "42"; Dom (hostAt 31000) (mouseMove 5 6);
                 Dom (hostAt 32000) (mouseMove 7 8); Unload (hostAt 40000) None])%list.

Definition endedPage : Page := Eval vm_compute in after wholeVisit.

(** A visit that ends after one move. *)
Definition shortVisit : list (@Event string) :=
  [Dom (hostAt 29000) (mouseMove 3 4)].

(** The deferred post has come due in a visit sampled at 100 ms. *)
Definition sampledPage : Page := Eval vm_compute in
  match run pathOf (start 0 (withSampling 100)) firstPost with
  | Some p => p
  | None => loaded 0
  end.

(** The short visit, unloaded; the answer "7" comes back in time. *)
Definition shortEnded : Page := Eval vm_compute in
  after (shortVisit ++ [Unload (hostAt 30000) (Some "7")]).

(** A visit in which the page lives on after the unload handler has
    run: the deferred post is out, unanswered, when [flush] posts an
    init request, which is answered "42" at once. *)
Definition lateVisit : list (@Event string) :=
  [TimeoutFires (hostAt 30000); Unload (hostAt 30500) (Some "42")].


(** The deferred post is then answered "0". *)
Definition resetPage : Page := Eval vm_compute in
  after (lateVisit ++ [Response "0"]).


(** The no-break space, U+00A0. *)
Definition nbsp : string := String (ascii_of_nat 160) EmptyString.

Example parseInt_42 : parseInt "42" = Num 42.
Proof. reflexivity. Qed.
Example parseInt_42abc : parseInt "42abc" = Num 42.
Proof. reflexivity. Qed.
Example parseInt_zero : parseInt "0" = Num 0.
Proof. reflexivity. Qed.
Example parseInt_error : parseInt "error" = NaN.
Proof. reflexivity. Qed.
Example parseInt_empty : parseInt "" = NaN.
Proof. reflexivity. Qed.
Example parseInt_hex : parseInt "0x1A" = Num 26.
Proof. reflexivity. Qed.
Example parseInt_signed : parseInt " -7 " = Num (-7).
Proof. reflexivity. Qed.
Example showZ_42 : showZ 42 = "42" /\ showZ 0 = "0" /\ showZ (-5) = "-5".
Proof. repeat split. Qed.
Example parseInt_nbsp : parseInt (nbsp ++ "42") = Num 42.
Proof. reflexivity. Qed.
Example parseInt_rounds :
  parseInt "9007199254740993" = Num 9007199254740992 /\
  parseInt "9007199254740995" = Num 9007199254740996 /\
  parseInt "-1152921504606846977" = Num (-1152921504606846976).
Proof. repeat split. Qed.
Example parseInt_overflows :
  parseInt ("1" ++ zeros 308) = Num (10 ^ 308 + 1097906362944045541740492309677311846336810682903157585404911491537163328978494688899061249669721172515611590283743140088328307009198146046031271664502933027185697489699588559043338384466165001178426897626212945177628091195786707458122783970171784415105291802893207873272974885715430223118336) /\
  parseInt ("1" ++ zeros 309) = Infinity false /\
  parseInt ("-1" ++ zeros 309) = Infinity true.
Proof. repeat split; vm_compute; reflexivity. Qed.
Example toString_numbers :
  toString (Num 42) = "42" /\ toString (Num (-5)) = "-5" /\
  toString (Num (2 ^ 53)) = "9007199254740992" /\
  toString (Num (2 ^ 60)) = "1152921504606847000" /\
  toString (Num (- 2 ^ 60)) = "-1152921504606847000" /\
  toString (Num (10 ^ 21)) = "1e+21" /\
  toString (Num (2 ^ 70)) = "1.1805916207174113e+21" /\
  toString NaN = "NaN" /\ toString (Infinity false) = "Infinity".
Proof. repeat split; vm_compute; reflexivity. Qed.

(** ** Properties *)

(** *** [parseInt] reads back what [showZ] writes *)

Lemma code_bounds (c : ascii) : 0 <= code c < 256.
Proof. unfold code. pose proof (nat_ascii_bounded c). lia. Qed.

Lemma digits_nondigit (s : string) :
  startsWithDigit s = false -> digits 10 s = [].
Proof.
  destruct s as [|c s]; [reflexivity|].
  unfold startsWithDigit. simpl digits. unfold digitVal.
  intro H. rewrite H.
  destruct ((97 <=? code c) && (code c <=? 122)) eqn:E1.
  - destruct (Z.ltb_spec (code c - 87) 10); [lia | reflexivity].
  - destruct ((65 <=? code c) && (code c <=? 90)) eqn:E2; [|reflexivity].
    destruct (Z.ltb_spec (code c - 55) 10); [lia | reflexivity].
Qed.

Lemma digits_uint (d : Decimal.uint) (rest : string) :
  startsWithDigit rest = false ->
  digits 10 (NilEmpty.string_of_uint d ++ rest) = uintDigits d.
Proof.
  intro H. induction d; simpl; try (f_equal; exact IHd).
  now apply digits_nondigit.
Qed.

Lemma mathInt_acc (d : Decimal.uint) (a : positive) :
  fold_left (fun acc k => acc * 10 + k) (uintDigits d) (Z.pos a)
  = Z.pos (Pos.of_uint_acc d a).
Proof.
  revert a. induction d; intro a; cbn [uintDigits fold_left Pos.of_uint_acc];
    try reflexivity; rewrite <- IHd; f_equal; lia.
Qed.

Lemma mathInt_uint (d : Decimal.uint) :
  mathInt 10 (uintDigits d) = Z.of_N (Pos.of_uint d).
Proof.
  unfold mathInt.
  induction d; cbn [uintDigits fold_left Pos.of_uint]; try reflexivity;
    try (simpl Z.add; cbn [Z.of_N]; apply mathInt_acc).
  exact IHd.
Qed.

Lemma uintDigits_nonnil (d : Decimal.uint) : d <> Decimal.Nil -> uintDigits d <> [].
Proof. destruct d; simpl; congruence. Qed.

(** A numeral without a leading zero is read in radix 10, with no sign
    and no white space to skip. *)
Lemma numeral_prefix (d : Decimal.uint) (rest : string) :
  d <> Decimal.Nil -> d <> Decimal.zero ->
  let s := (NilEmpty.string_of_uint d ++ rest)%string in
  trimStart s = s /\ signOf s = (1, s) /\ radixOf s = (10, s).
Proof.
  intros Hnil Hzero.
  destruct d as [|l|l|l|l|l|l|l|l|l|l]; try congruence; try (now repeat split).
  destruct l; now repeat split.
Qed.

Lemma roundDouble_small (z : Z) : Z.abs z <= twoTo53 -> roundDouble z = Some z.
Proof.
  intro H. unfold roundDouble. destruct (Z.leb_spec (Z.abs z) twoTo53); [reflexivity | lia].
Qed.

Lemma parseInt_positive (p : positive) (rest : string) :
  Z.pos p <= twoTo53 -> startsWithDigit rest = false ->
  parseInt (NilEmpty.string_of_uint (Pos.to_uint p) ++ rest) = Num (Z.pos p).
Proof.
  intros Hp H.
  destruct (numeral_prefix (Pos.to_uint p) rest) as (E1 & E2 & E3);
    [apply DecimalPos.Unsigned.to_uint_nonnil
    | apply DecimalPos.Unsigned.to_uint_nonzero |].
  unfold parseInt. rewrite E1, E2, E3, (digits_uint _ _ H).
  pose proof (uintDigits_nonnil (Pos.to_uint p)
                (DecimalPos.Unsigned.to_uint_nonnil p)) as Hne.
  pose proof (mathInt_uint (Pos.to_uint p)) as Hv.
  rewrite DecimalPos.Unsigned.of_to in Hv.
  destruct (uintDigits (Pos.to_uint p)); [congruence|].
  rewrite Hv. change (1 * Z.of_N (N.pos p)) with (Z.pos p).
  now rewrite roundDouble_small by (simpl; exact Hp).
Qed.

Lemma parseInt_negative (p : positive) (rest : string) :
  Z.pos p <= twoTo53 -> startsWithDigit rest = false ->
  parseInt (String "-" (NilEmpty.string_of_uint (Pos.to_uint p) ++ rest))
  = Num (Z.neg p).
Proof.
  intros Hp H.
  destruct (numeral_prefix (Pos.to_uint p) rest) as (E1 & E2 & E3);
    [apply DecimalPos.Unsigned.to_uint_nonnil
    | apply DecimalPos.Unsigned.to_uint_nonzero |].
  change (parseInt (String "-" (NilEmpty.string_of_uint (Pos.to_uint p) ++ rest)))
    with (let (R, s2) := radixOf (NilEmpty.string_of_uint (Pos.to_uint p) ++ rest) in
          match digits R s2 with
          | [] => NaN
          | ds =>
              match roundDouble (-1 * mathInt R ds) with
              | Some v => Num v
              | None => Infinity true
              end
          end).
  rewrite E3, (digits_uint _ _ H).
  pose proof (uintDigits_nonnil (Pos.to_uint p)
                (DecimalPos.Unsigned.to_uint_nonnil p)) as Hne.
  pose proof (mathInt_uint (Pos.to_uint p)) as Hv.
  rewrite DecimalPos.Unsigned.of_to in Hv.
  destruct (uintDigits (Pos.to_uint p)); [congruence|].
  rewrite Hv. change (-1 * Z.of_N (N.pos p)) with (Z.neg p).
  now rewrite roundDouble_small by (simpl; exact Hp).
Qed.

Lemma trimStart_whiteSpace (ws s : string) :
  allWhiteSpace ws = true -> trimStart (ws ++ s) = trimStart s.
Proof.
  induction ws as [|c ws IH]; simpl; [reflexivity|].
  intro H. apply andb_prop in H as [Hc Hws]. rewrite Hc. now apply IH.
Qed.

(** [parseInt] reads a non-zero integer of at most 2^53 in size back
    from its decimal writing, whatever white space comes before and
    whatever comes after, as long as that is not one more digit. *)
Lemma parseInt_showZ (ws : string) (n : Z) (rest : string) :
  allWhiteSpace ws = true -> n <> 0 -> Z.abs n <= twoTo53 ->
  startsWithDigit rest = false ->
  parseInt (ws ++ showZ n ++ rest) = Num n.
Proof.
  intros Hws Hn Hsafe Hrest.
  assert (E : parseInt (ws ++ showZ n ++ rest) = parseInt (showZ n ++ rest)).
  { unfold parseInt. now rewrite trimStart_whiteSpace. }
  rewrite E. destruct n as [|p|p]; [congruence | |].
  - now apply parseInt_positive.
  - now apply parseInt_negative.
Qed.

Lemma radixOf_nondigit (s : string) :
  startsWithDigit s = false -> radixOf s = (10, s).
Proof.
  destruct s as [|c s]; [reflexivity|].
  destruct c as [[] [] [] [] [] [] [] []]; try reflexivity; discriminate.
Qed.

(** No digit after the white space and the sign: [NaN]. *)
Lemma parseInt_NaN (r : string) :
  startsWithDigit (snd (signOf (trimStart r))) = false -> parseInt r = NaN.
Proof.
  unfold parseInt. destruct (signOf (trimStart r)) as [sg s1]. simpl snd.
  intro H. now rewrite (radixOf_nondigit _ H), (digits_nondigit _ H).
Qed.

Section Properties.

Context {Node : Type} (getXPath : Node -> string).

(** *** Recording one event *)

Lemma fillInfo_row (h : Host) (e : DomEvent) (p : Page) :
  fillInfo (id e) (getTime h) (getMousePos h e) (type e) (findElement getXPath e) p
  = setInfo (info p ++ [row getXPath h e])%list p.
Proof. reflexivity. Qed.

Lemma eventHandler_accepts (h : Host) (e : DomEvent) (p : Page) :
  eventHandler getXPath h e p = if accepts p (getTime h) then kept getXPath h e p else p.
Proof.
  unfold eventHandler, accepts, kept, fixEvent.
  destruct (0 <? samplingFreq (settings p));
    [destruct (samplingFreq (settings p) <=? getTime h - time p)|];
    reflexivity.
Qed.

Lemma kept_differs (h : Host) (e : DomEvent) (p : Page) : kept getXPath h e p <> p.
Proof.
  intro E. apply (f_equal info) in E. simpl in E.
  apply (f_equal (@List.length string)) in E.
  rewrite length_app in E. simpl in E. lia.
Qed.

(** An event changes nothing but the clock and the rows. *)
Lemma eventHandler_frame (h : Host) (e : DomEvent) (p : Page) :
  settings (eventHandler getXPath h e p) = settings p /\ uid (eventHandler getXPath h e p) = uid p /\
  timeouts (eventHandler getXPath h e p) = timeouts p /\ intervals (eventHandler getXPath h e p) = intervals p /\
  awaiting (eventHandler getXPath h e p) = awaiting p /\ sent (eventHandler getXPath h e p) = sent p.
Proof.
  rewrite eventHandler_accepts. destruct (accepts p (getTime h)); now repeat split.
Qed.

(** C1. An event read at time [now] is recorded when [samplingFreq] is
    zero or less; when it is positive the event is recorded if
    [now - time >= samplingFreq] and dropped otherwise.  Recording pushes
    the row and sets [time] to [now]; dropping leaves the whole page as
    it was. *)
Theorem C1_sampling_gate (h : Host) (e : DomEvent) (p : Page) :
  (samplingFreq (settings p) <= 0 -> eventHandler getXPath h e p = kept getXPath h e p) /\
  (0 < samplingFreq (settings p) ->
   samplingFreq (settings p) <= getTime h - time p ->
   eventHandler getXPath h e p = kept getXPath h e p) /\
  (0 < samplingFreq (settings p) ->
   getTime h - time p < samplingFreq (settings p) ->
   eventHandler getXPath h e p = p) /\
  time (kept getXPath h e p) = getTime h /\
  info (kept getXPath h e p) = (info p ++ [row getXPath h e])%list /\
  kept getXPath h e p <> p.
Proof.
  rewrite eventHandler_accepts. unfold accepts.
  repeat split; try apply kept_differs; intros.
  - destruct (Z.ltb_spec 0 (samplingFreq (settings p))); [lia | reflexivity].
  - destruct (Z.ltb_spec 0 (samplingFreq (settings p))); [| reflexivity].
    destruct (Z.leb_spec (samplingFreq (settings p)) (getTime h - time p));
      [reflexivity | lia].
  - destruct (Z.ltb_spec 0 (samplingFreq (settings p))); [| lia].
    destruct (Z.leb_spec (samplingFreq (settings p)) (getTime h - time p));
      [lia | reflexivity].
Qed.

(** *** Sequences of events *)

Lemma handleAll_cons (he : Host * DomEvent) (es : list (Host * DomEvent)) (p : Page) :
  handleAll getXPath (he :: es) p
  = handleAll getXPath es (eventHandler getXPath (fst he) (snd he) p).
Proof. reflexivity. Qed.

Lemma handleAll_frame (es : list (Host * DomEvent)) (p : Page) :
  settings (handleAll getXPath es p) = settings p /\
  uid (handleAll getXPath es p) = uid p /\
  timeouts (handleAll getXPath es p) = timeouts p /\
  intervals (handleAll getXPath es p) = intervals p /\
  awaiting (handleAll getXPath es p) = awaiting p /\
  sent (handleAll getXPath es p) = sent p.
Proof.
  revert p. induction es as [|he es IH]; intro p; [now repeat split|].
  rewrite handleAll_cons.
  destruct (IH (eventHandler getXPath (fst he) (snd he) p))
    as (E1 & E2 & E3 & E4 & E5 & E6).
  destruct (eventHandler_frame (fst he) (snd he) p)
    as (F1 & F2 & F3 & F4 & F5 & F6).
  repeat split; congruence.
Qed.

(** The rows pushed by a sequence of events are the rows of those that
    pass the gate, in the order of the sequence. *)
Lemma handleAll_info (es : list (Host * DomEvent)) (p : Page) :
  info (handleAll getXPath es p)
  = (info p ++ map (rowOf getXPath)
                 (recorded (samplingFreq (settings p)) (time p) es))%list.
Proof.
  revert p. induction es as [|[h e] es IH]; intro p.
  - simpl. now rewrite app_nil_r.
  - rewrite handleAll_cons, IH. simpl fst; simpl snd.
    destruct (eventHandler_frame h e p) as (F1 & _). rewrite F1.
    rewrite eventHandler_accepts. unfold accepts. simpl recorded.
    destruct (if 0 <? samplingFreq (settings p)
              then samplingFreq (settings p) <=? getTime h - time p
              else true).
    + simpl. now rewrite <- app_assoc.
    + reflexivity.
Qed.

Lemma recorded_all (freq last : Z) (es : list (Host * @DomEvent Node)) :
  freq <= 0 -> recorded freq last es = es.
Proof.
  intro Hf. revert last. induction es as [|[h e] es IH]; intro last; simpl.
  - reflexivity.
  - destruct (Z.ltb_spec 0 freq); [lia|]. now rewrite IH.
Qed.

Lemma run_domEvents (es : list (Host * DomEvent)) (p : Page) :
  run getXPath p (domEvents es) = Some (handleAll getXPath es p).
Proof.
  revert p. induction es as [|he es IH]; intro p; [reflexivity|].
  rewrite handleAll_cons. cbn [domEvents map run]. unfold exec at 1. apply IH.
Qed.

Lemma touchHandler_handleAll (e : TouchEvent) (p : Page) :
  touchHandler getXPath e p = handleAll getXPath (touchesOf e) p.
Proof.
  unfold touchHandler, touchesOf, handleAll.
  destruct (changedTouches e) as [touches|]; [|reflexivity].
  revert p. induction touches as [|[h t] touches IH]; intro p; [reflexivity|].
  simpl. apply IH.
Qed.

(** *** The two posts *)

Lemma append_assoc (a b c : string) : ((a ++ b) ++ c)%string = (a ++ (b ++ c))%string.
Proof. induction a as [|ch a IH]; simpl; [reflexivity | now rewrite IH]. Qed.

Lemma initNewData_unfold (h : Host) (a : bool) (reply : option string) (p : Page) :
  initNewData h a reply p
  = setInfo [] (sendAjaxRequest reply (initRequest h a (settings p) (info p)) p).
Proof.
  unfold initNewData, send, initRequest, initPayload, arrayToString. simpl.
  rewrite !append_assoc. reflexivity.
Qed.

Lemma appendData_unfold (a : bool) (reply : option string) (p : Page) :
  appendData a reply p
  = setInfo [] (setSent (sent p ++ [appendRequest a (settings p) (uid p) (info p)]) p).
Proof.
  unfold appendData, send, sendAjaxRequest, appendRequest, appendPayload, arrayToString.
  simpl. rewrite !append_assoc. reflexivity.
Qed.

Lemma setUserId_frame (r : string) (p : Page) :
  settings (setUserId r p) = settings p /\ time (setUserId r p) = time p /\
  info (setUserId r p) = info p /\ timeouts (setUserId r p) = timeouts p /\
  awaiting (setUserId r p) = awaiting p /\ sent (setUserId r p) = sent p.
Proof.
  unfold setUserId. simpl. destruct (truthy (parseInt r)); now repeat split.
Qed.

Lemma sendAjaxRequest_sent (reply : option string) (req : Request) (p : Page) :
  sent (sendAjaxRequest reply req p) = (sent p ++ [req])%list.
Proof.
  unfold sendAjaxRequest.
  destruct (callback req); [destruct (async req); [|destruct reply as [r|]]|];
    try reflexivity.
  now destruct (setUserId_frame r (setSent (sent p ++ [req]) p)) as (_ & _ & _ & _ & _ & E).
Qed.

Lemma initNewData_sent (h : Host) (a : bool) (reply : option string) (p : Page) :
  sent (initNewData h a reply p)
  = (sent p ++ [initRequest h a (settings p) (info p)])%list.
Proof. rewrite initNewData_unfold. simpl. apply sendAjaxRequest_sent. Qed.

Lemma appendData_sent (a : bool) (reply : option string) (p : Page) :
  sent (appendData a reply p)
  = (sent p ++ [appendRequest a (settings p) (uid p) (info p)])%list.
Proof. now rewrite appendData_unfold. Qed.

(** C2, amended.  Every post, init or append, puts the whole buffer in
    its payload and then empties the buffer, once, whatever becomes of
    the request: after a post the buffer is empty, also when the request
    fails. *)
Theorem C2_buffer_cleared (h : Host) (a : bool) (reply : option string) (p : Page) :
  info (initNewData h a reply p) = [] /\
  sent (initNewData h a reply p)
  = (sent p ++ [initRequest h a (settings p) (info p)])%list /\
  info (appendData a reply p) = [] /\
  sent (appendData a reply p)
  = (sent p ++ [appendRequest a (settings p) (uid p) (info p)])%list.
Proof.
  split; [now rewrite initNewData_unfold|].
  split; [apply initNewData_sent|].
  split; [now rewrite appendData_unfold | apply appendData_sent].
Qed.

(** C8.  The events of a sequence that are recorded leave one row each
    in the buffer, in the order they came, each row being the six fields
    joined by a space (see [row]); the [info] field of the next payload,
    append or init, is these rows joined by a comma, in that order. *)
Theorem C8_info_order (es : list (Host * DomEvent)) (p : Page) :
  exists p',
    run getXPath p (domEvents es) = Some p' /\
    let rows := (info p ++ map (rowOf getXPath)
                   (recorded (samplingFreq (settings p)) (time p) es))%list in
    info p' = rows /\
    (samplingFreq (settings p) <= 0 ->
     info p' = (info p ++ map (rowOf getXPath) es)%list) /\
    (forall a reply,
       sent (appendData a reply p')
       = (sent p ++ [{| url := Some (postServer (settings p)); async := a;
                        postdata := "uid=" ++ toString (uid p) ++ "&info="
                                    ++ String.concat "," rows ++ "&action=append";
                        callback := false |}])%list) /\
    (forall h a reply,
       sent (initNewData h a reply p')
       = (sent p ++ [initRequest h a (settings p) rows])%list).
Proof.
  exists (handleAll getXPath es p).
  destruct (handleAll_frame es p) as (E1 & E2 & _ & _ & _ & E6).
  split; [apply run_domEvents|]. cbv zeta.
  split; [apply handleAll_info|].
  split; [intro Hf; now rewrite handleAll_info, recorded_all|].
  split; intros.
  - now rewrite appendData_sent, E1, E2, E6, handleAll_info.
  - now rewrite initNewData_sent, E1, E6, handleAll_info.
Qed.

(** C9, amended.  The two touches of a touch event are handled one after
    the other, in the order of [changedTouches], each by a call of
    [eventHandler] on the touch with its own cursor id and the name of
    the event.  Each call goes through the sampling gate with the clock
    as the call before left it, so a touch leaves a row only if it
    passes; with sampling off ([samplingFreq <= 0]) exactly two rows are
    pushed, in that order. *)
Theorem C9_two_touches (ty : string) (h1 h2 : Host) (t1 t2 : DomEvent) (p : Page) :
  let e := {| touchType := ty; changedTouches := Some [(h1, t1); (h2, t2)] |} in
  let c1 := setType ty t1 in
  let c2 := setType ty t2 in
  touchHandler getXPath e p
  = eventHandler getXPath h2 c2 (eventHandler getXPath h1 c1 p) /\
  id c1 = id t1 /\ id c2 = id t2 /\
  info (touchHandler getXPath e p)
  = (info p ++ map (rowOf getXPath)
       (recorded (samplingFreq (settings p)) (time p) [(h1, c1); (h2, c2)]))%list /\
  (samplingFreq (settings p) <= 0 ->
   info (touchHandler getXPath e p)
   = (info p ++ [row getXPath h1 c1; row getXPath h2 c2])%list).
Proof.
  cbv zeta. split; [reflexivity|]. split; [reflexivity|]. split; [reflexivity|].
  rewrite touchHandler_handleAll, handleAll_info. unfold touchesOf. simpl map at 2.
  split; [reflexivity|].
  intro Hf. now rewrite recorded_all.
Qed.

(** *** The phases of a visit *)

Lemma appendData_frame (a : bool) (reply : option string) (p : Page) :
  settings (appendData a reply p) = settings p /\ uid (appendData a reply p) = uid p /\
  timeouts (appendData a reply p) = timeouts p /\
  intervals (appendData a reply p) = intervals p /\
  awaiting (appendData a reply p) = awaiting p /\
  info (appendData a reply p) = [].
Proof. rewrite appendData_unfold. now repeat split. Qed.

Lemma initNewData_async (h : Host) (reply : option string) (p : Page) :
  initNewData h true reply p
  = setInfo [] (setAwaiting (S (awaiting p))
                  (setSent (sent p ++ [initRequest h true (settings p) (info p)]) p)).
Proof. now rewrite initNewData_unfold. Qed.

Lemma initNewData_sync (h : Host) (reply : option string) (p : Page) :
  initNewData h false reply p
  = setInfo []
      (match reply with
       | Some r => setUserId r
       | None => fun q => q
       end (setSent (sent p ++ [initRequest h false (settings p) (info p)]) p)).
Proof. rewrite initNewData_unfold. now destruct reply. Qed.

(** [setUserId] never stops a timer. *)
Lemma setUserId_intervals (r : string) (p : Page) (d : Z) :
  In d (intervals p) -> In d (intervals (setUserId r p)).
Proof.
  unfold setUserId. simpl. destruct (truthy (parseInt r)); simpl; [|tauto].
  intro H. apply in_or_app. now left.
Qed.

(** [flush] touches neither the deferred post nor the awaited answers,
    stops no timer, and empties the buffer. *)
Lemma flush_frame (h : Host) (reply : option string) (p : Page) :
  settings (flush h reply p) = settings p /\
  timeouts (flush h reply p) = timeouts p /\
  awaiting (flush h reply p) = awaiting p /\
  info (flush h reply p) = [] /\
  (forall d, In d (intervals p) -> In d (intervals (flush h reply p))) /\
  (truthy (uid p) = true ->
   uid (flush h reply p) = uid p /\ intervals (flush h reply p) = intervals p).
Proof.
  unfold flush. destruct (truthy (uid p)) eqn:Et.
  - destruct (appendData_frame false reply p) as (F1 & F2 & F3 & F4 & F5 & F6).
    repeat split; try assumption. intros d Hd. now rewrite F4.
  - rewrite initNewData_sync. destruct reply as [r|].
    + destruct (setUserId_frame r
                  (setSent (sent p ++ [initRequest h false (settings p) (info p)]) p))
        as (F1 & _ & _ & F4 & F5 & _).
      repeat split; try assumption; try discriminate.
      intros d Hd. simpl. now apply setUserId_intervals.
    + repeat split; try discriminate. now intros d Hd.
Qed.

Lemma phase_same (p q : Page) :
  uid q = uid p -> timeouts q = timeouts p -> intervals q = intervals p ->
  awaiting q = awaiting p -> phase p -> phase q.
Proof.
  intros E1 E2 E3 E4 [d H2 H3 H4 H5 | H2 H3 H4 H5 | H2 H3 H4].
  - apply (Deferred _ d); congruence.
  - apply Pending; congruence.
  - apply Answered; try congruence. rewrite E1, E3. exact H4.
Qed.

Lemma phase_start (t0 : Z) (config : Config) : phase (start t0 config).
Proof.
  apply (Deferred _ (override (cfgPostInterval config) 30 * 1000)); reflexivity.
Qed.

(** [inspect] leaves the handler the event has run. *)
Ltac inspect Hex := unfold exec in Hex.

(** The three phases, those at odds with the context closed. *)
Ltac by_phase Hph :=
  destruct Hph as [d' H2 H3 H4 H5 | H2 H3 H4 H5 | H2 H3 H4];
  try congruence.

Lemma phase_exec (p : Page) (ev : Event) (p' : Page) :
  phase p -> isUnload ev = false -> exec getXPath p ev = Some p' -> phase p'.
Proof.
  intros Hph Hev Hex. inspect Hex.
  destruct ev as [h e | e | h | | r | | h reply]; try discriminate.
  - injection Hex as <-.
    destruct (eventHandler_frame h e p) as (_ & F2 & F3 & F4 & F5 & _).
    now apply (phase_same p).
  - injection Hex as <-. rewrite touchHandler_handleAll.
    destruct (handleAll_frame (touchesOf e) p) as (_ & F2 & F3 & F4 & F5 & _).
    now apply (phase_same p).
  - destruct (timeouts p) as [|d rest] eqn:Et; [discriminate|].
    injection Hex as <-. rewrite initNewData_async.
    by_phase Hph.
    apply Pending; simpl; try assumption; try reflexivity; congruence.
  - destruct (intervals p) as [|d rest] eqn:Ei; [discriminate|].
    injection Hex as <-.
    destruct (appendData_frame true None p) as (_ & F2 & F3 & F4 & F5 & _).
    now apply (phase_same p).
  - destruct (awaiting p) as [|n] eqn:Ew; [discriminate|].
    injection Hex as <-. by_phase Hph.
    assert (n = 0%nat) as -> by congruence.
    unfold setUserId. simpl.
    destruct (truthy (parseInt r)) eqn:Et.
    + apply Answered; simpl; try assumption; try reflexivity. congruence.
    + apply Answered; simpl; try assumption; try reflexivity. intros _. exact H4.
  - destruct (awaiting p) as [|n] eqn:Ew; [discriminate|].
    injection Hex as <-. by_phase Hph.
    assert (n = 0%nat) as -> by congruence.
    apply Answered; simpl; try assumption; try reflexivity. intros _. exact H4.
Qed.

Lemma phase_run (evs : list Event) (p p' : Page) :
  phase p -> forallb (fun ev => negb (isUnload ev)) evs = true ->
  run getXPath p evs = Some p' -> phase p'.
Proof.
  revert p. induction evs as [|ev evs IH]; intros p Hph Hev Hrun; simpl in Hrun.
  - now injection Hrun as <-.
  - simpl in Hev. apply andb_prop in Hev as [Hev Hevs].
    apply negb_true_iff in Hev.
    destruct (exec getXPath p ev) as [p1|] eqn:Hex; [|discriminate].
    apply (IH p1); [now apply (phase_exec p ev) | assumption | assumption].
Qed.

Lemma run_app (evs1 evs2 : list Event) (p : Page) :
  run getXPath p (evs1 ++ evs2)
  = match run getXPath p evs1 with
    | Some p1 => run getXPath p1 evs2
    | None => None
    end.
Proof.
  revert p. induction evs1 as [|ev evs1 IH]; intro p; simpl; [reflexivity|].
  destruct (exec getXPath p ev); [apply IH | reflexivity].
Qed.

Lemma run_split (evs1 : list Event) (ev : Event) (evs2 : list Event) (p p' : Page) :
  run getXPath p (evs1 ++ ev :: evs2) = Some p' ->
  exists q q', run getXPath p evs1 = Some q /\ exec getXPath q ev = Some q' /\
               run getXPath q' evs2 = Some p'.
Proof.
  rewrite run_app. destruct (run getXPath p evs1) as [q|]; [|discriminate].
  simpl. destruct (exec getXPath q ev) as [q'|] eqn:Hex; [|discriminate].
  intro H. now exists q, q'.
Qed.

Lemma reachable_run (p p' : Page) (evs : list Event) :
  reachable getXPath p -> run getXPath p evs = Some p' -> reachable getXPath p'.
Proof.
  intros (t0 & config & evs0 & Hrun) H.
  exists t0, config, (evs0 ++ evs)%list. now rewrite run_app, Hrun.
Qed.

(** *** The session *)

Lemma truthy_nonzero (n : Z) : n <> 0 -> truthy (Num n) = true.
Proof. intro Hn. simpl. apply Z.eqb_neq in Hn. now rewrite Hn. Qed.



Lemma flush_sent (h : Host) (reply : option string) (p : Page) :
  sent (flush h reply p)
  = (sent p ++ [if truthy (uid p)
                then appendRequest false (settings p) (uid p) (info p)
                else initRequest h false (settings p) (info p)])%list.
Proof.
  unfold flush. destruct (truthy (uid p));
    [apply appendData_sent | apply initNewData_sent].
Qed.









(** The settings are those [record] has left. *)
Lemma settings_exec (p : Page) (ev : Event) (p' : Page) :
  exec getXPath p ev = Some p' -> settings p' = settings p.
Proof.
  intro Hex. inspect Hex.
  destruct ev as [h e | e | h | | r | | h reply].
  - injection Hex as <-. apply eventHandler_frame.
  - injection Hex as <-. rewrite touchHandler_handleAll. apply handleAll_frame.
  - destruct (timeouts p); [discriminate|]. injection Hex as <-.
    now rewrite initNewData_async.
  - destruct (intervals p); [discriminate|]. injection Hex as <-.
    apply appendData_frame.
  - destruct (awaiting p) as [|m]; [discriminate|]. injection Hex as <-.
    now destruct (setUserId_frame r (setAwaiting m p)) as (E & _).
  - destruct (awaiting p) as [|m]; [discriminate|]. now injection Hex as <-.
  - injection Hex as <-. apply flush_frame.
Qed.

Lemma settings_run (evs : list Event) (p p' : Page) :
  run getXPath p evs = Some p' -> settings p' = settings p.
Proof.
  revert p. induction evs as [|ev evs IH]; intros p Hrun; simpl in Hrun.
  - now injection Hrun as <-.
  - destruct (exec getXPath p ev) as [p1|] eqn:Hex; [|discriminate].
    rewrite (IH p1 Hrun). now apply (settings_exec p ev).
Qed.

(** C5, amended.  Each time the unload handler runs, [flush] hands
    exactly one request to the transport, a synchronous one: an append
    carrying the id and all the rows of the buffer if an id is stored,
    an init carrying all the rows otherwise; the buffer is then empty.
    [flush] leaves the deferred post and the awaited answers as they
    were and stops no timer: if the page lives on, posting goes on. *)
Theorem C5_flush_once (p : Page) (h : Host) (reply : option string) (p' : Page) :
  exec getXPath p (Unload h reply) = Some p' ->
  (exists req,
     sent p' = (sent p ++ [req])%list /\ async req = false /\
     req = if truthy (uid p)
           then appendRequest false (settings p) (uid p) (info p)
           else initRequest h false (settings p) (info p)) /\
  info p' = [] /\
  timeouts p' = timeouts p /\ awaiting p' = awaiting p /\
  (forall d, In d (intervals p) -> In d (intervals p')).
Proof.
  intro Hex. inspect Hex. injection Hex as <-.
  destruct (flush_frame h reply p) as (_ & F2 & F3 & F4 & F5 & _).
  split; [|now repeat split].
  eexists. split; [apply flush_sent|].
  split; [|reflexivity]. now destruct (truthy (uid p)).
Qed.





(** *** When no id comes back *)




(** C10, amended.  [setUserId] reads the answer with [parseInt], which
    skips white space, takes a sign, and reads the integer the rest
    starts with.  An answer whose beginning reads as a non-zero integer
    (of at most 2^53 in size, beyond which the id read is the nearest
    double), whatever follows it ("42abc"), stores that integer as the
    id and starts the timer, so that [flush] posts an append.  An answer
    in which no digit comes after the white space and the sign stores
    [NaN]: no timer is started, and [flush] posts an init. *)
Theorem C10_prefix_parsing (p : Page) :
  (forall ws n rest,
     allWhiteSpace ws = true -> n <> 0 -> Z.abs n <= twoTo53 ->
     startsWithDigit rest = false ->
     let p1 := setUserId (ws ++ showZ n ++ rest) p in
     uid p1 = Num n /\
     intervals p1 = (intervals p ++ [postInterval (settings p) * 1000])%list /\
     forall h reply,
       sent (flush h reply p1)
       = (sent p ++ [appendRequest false (settings p) (Num n) (info p)])%list) /\
  (forall r,
     startsWithDigit (snd (signOf (trimStart r))) = false ->
     let p1 := setUserId r p in
     uid p1 = NaN /\
     intervals p1 = intervals p /\
     forall h reply,
       sent (flush h reply p1)
       = (sent p ++ [initRequest h false (settings p) (info p)])%list).
Proof.
  split.
  - intros ws n rest Hws Hn Hsafe Hrest p1.
    pose proof (truthy_nonzero n Hn) as Ht.
    assert (E : p1 = setInterval (postInterval (settings p) * 1000) (setUid (Num n) p)).
    { unfold p1, setUserId. rewrite (parseInt_showZ ws n rest Hws Hn Hsafe Hrest).
      simpl uid. now rewrite Ht. }
    rewrite E. split; [reflexivity|]. split; [reflexivity|].
    intros h reply. rewrite flush_sent. simpl uid. now rewrite Ht.
  - intros r Hr p1.
    assert (E : p1 = setUid NaN p).
    { unfold p1, setUserId. now rewrite (parseInt_NaN r Hr). }
    rewrite E. split; [reflexivity|]. split; [reflexivity|].
    intros h reply. now rewrite flush_sent.
Qed.

(** ** Further properties *)

(** *** The position of an event *)

Lemma clamp_max (z : Z) : clamp (Some z) = Z.max 0 z.
Proof.
  unfold clamp.
  destruct (Z.eqb_spec z 0); destruct (Z.ltb_spec z 0); simpl; lia.
Qed.

Lemma clamp_nonneg (c : value) : 0 <= clamp c.
Proof. destruct c as [z|]; [rewrite clamp_max; lia | simpl; lia]. Qed.

Lemma valTruthy_some (z : Z) : valTruthy (Some z) = true <-> z <> 0.
Proof. simpl. destruct (Z.eqb_spec z 0); simpl; split; congruence. Qed.

(** X1.  Whatever the event and the scrolling, the position
    [getMousePos] returns has no negative coordinate. *)
Theorem X1_position_not_negative (h : Host) (e : @DomEvent Node) :
  0 <= x (getMousePos h e) /\ 0 <= y (getMousePos h e).
Proof.
  unfold getMousePos.
  destruct (valTruthy (pageX (fixEvent e)) || valTruthy (pageY (fixEvent e)));
    [|destruct (valTruthy (clientX (fixEvent e)) || valTruthy (clientY (fixEvent e)))];
    cbn [x y]; split; apply clamp_nonneg.
Qed.

(** X2.  When the event has page coordinates and one of them is not
    zero, the position is the page coordinates, a negative one replaced
    by zero: the client coordinates and the scrolling play no part. *)
Theorem X2_page_coordinates_first (h : Host) (e : @DomEvent Node) (px py : Z) :
  pageX e = Some px -> pageY e = Some py -> px <> 0 \/ py <> 0 ->
  getMousePos h e = {| x := Z.max 0 px; y := Z.max 0 py |}.
Proof.
  intros Hx Hy Hnz. unfold getMousePos, fixEvent. rewrite Hx, Hy.
  assert (E : valTruthy (Some px) || valTruthy (Some py) = true).
  { apply orb_true_iff. destruct Hnz; [left | right]; now apply valTruthy_some. }
  rewrite E. now rewrite !clamp_max.
Qed.

(** X3.  When the page coordinates are missing or both zero, the
    position is the client coordinates plus the scrolling of the body
    and of the document element, a negative sum replaced by zero; and
    when the client coordinates are missing or both zero as well (a key
    or a window event), the position is the origin. *)
Theorem X3_client_coordinates_next (h : Host) (e : @DomEvent Node) (cx cy : Z) :
  valTruthy (pageX e) = false -> valTruthy (pageY e) = false ->
  (clientX e = Some cx -> clientY e = Some cy -> cx <> 0 \/ cy <> 0 ->
   getMousePos h e
   = {| x := Z.max 0 (cx + bodyScrollLeft h + docScrollLeft h);
        y := Z.max 0 (cy + bodyScrollTop h + docScrollTop h) |}) /\
  (valTruthy (clientX e) = false -> valTruthy (clientY e) = false ->
   getMousePos h e = {| x := 0; y := 0 |}).
Proof.
  intros Hx Hy. unfold getMousePos, fixEvent. rewrite Hx, Hy. simpl orb. split.
  - intros Hcx Hcy Hnz. rewrite Hcx, Hcy.
    assert (E : valTruthy (Some cx) || valTruthy (Some cy) = true).
    { apply orb_true_iff. destruct Hnz; [left | right]; now apply valTruthy_some. }
    rewrite E. cbn [plus]. now rewrite !clamp_max.
  - intros Hcx Hcy. now rewrite Hcx, Hcy.
Qed.

(** *** The sampling of a sequence of events *)

Lemma added_app (p q : Page) (rows : list string) :
  info q = (info p ++ rows)%list -> added p q = rows.
Proof.
  unfold added. intros ->. induction (info p) as [|r l IH]; [reflexivity | exact IH].
Qed.

Lemma last_cons (t d : Z) (l : list Z) : last (t :: l) d = last l t.
Proof.
  revert t d. induction l as [|a l IH]; intros t d; [reflexivity|].
  change (last (t :: a :: l) d) with (last (a :: l) d). now rewrite !IH.
Qed.

Lemma recorded_spaced (freq last : Z) (es : list (Host * @DomEvent Node)) :
  0 < freq -> spaced freq last (times (recorded freq last es)).
Proof.
  intro Hf. revert last. induction es as [|[h e] es IH]; intro last; simpl; [exact I|].
  destruct (Z.ltb_spec 0 freq); [|lia].
  destruct (Z.leb_spec freq (getTime h - last)); [|apply IH].
  simpl. split; [assumption | apply IH].
Qed.

Lemma handleAll_time (es : list (Host * DomEvent)) (p : Page) :
  time (handleAll getXPath es p)
  = last (times (recorded (samplingFreq (settings p)) (time p) es)) (time p).
Proof.
  revert p. induction es as [|[h e] es IH]; intro p; [reflexivity|].
  rewrite handleAll_cons, IH. simpl fst; simpl snd.
  destruct (eventHandler_frame h e p) as (F1 & _). rewrite F1.
  rewrite eventHandler_accepts. unfold accepts. simpl recorded.
  destruct (if 0 <? samplingFreq (settings p)
            then samplingFreq (settings p) <=? getTime h - time p
            else true); [|reflexivity].
  unfold times. simpl map. now rewrite last_cons.
Qed.

Lemma recorded_count (freq last T : Z) (es : list (Host * @DomEvent Node)) :
  0 < freq -> 0 <= T ->
  (forall he, In he es -> getTime (fst he) <= last + T) ->
  Z.of_nat (List.length (recorded freq last es)) * freq <= T.
Proof.
  intro Hf. revert last T. induction es as [|[h e] es IH]; intros last T HT Hall; simpl.
  - lia.
  - destruct (Z.ltb_spec 0 freq); [|lia].
    assert (Hh : getTime h <= last + T) by (apply (Hall (h, e)); now left).
    destruct (Z.leb_spec freq (getTime h - last)).
    + assert (IH' : Z.of_nat (List.length (recorded freq (getTime h) es)) * freq
                    <= T - (getTime h - last)).
      { apply IH; [lia|]. intros he Hin. specialize (Hall he (or_intror Hin)). lia. }
      simpl List.length. rewrite Nat2Z.inj_succ. lia.
    + apply IH; [assumption|]. intros he Hin. apply Hall. now right.
Qed.

Lemma recorded_none (freq last : Z) (es : list (Host * @DomEvent Node)) :
  0 < freq -> (forall he, In he es -> getTime (fst he) - last < freq) ->
  recorded freq last es = [].
Proof.
  intros Hf Hall. induction es as [|[h e] es IH]; simpl; [reflexivity|].
  destruct (Z.ltb_spec 0 freq); [|lia].
  assert (Hh : getTime h - last < freq) by (apply (Hall (h, e)); now left).
  destruct (Z.leb_spec freq (getTime h - last)); [lia|].
  apply IH. intros he Hin. apply Hall. now right.
Qed.

Lemma recorded_length (freq last : Z) (es : list (Host * @DomEvent Node)) :
  (List.length (recorded freq last es) <= List.length es)%nat.
Proof.
  revert last. induction es as [|[h e] es IH]; intro last; simpl; [lia|].
  destruct (if 0 <? freq then freq <=? getTime h - last else true); simpl.
  - specialize (IH (getTime h)). lia.
  - specialize (IH last). lia.
Qed.

(** X4.  With sampling on, the events of a sequence that leave a row are
    at least [samplingFreq] ms apart, the first of them at least that
    long after the clock of the page; and the clock ends at the time of
    the last event that left a row (where it was, if none did). *)
Theorem X4_recorded_spacing (es : list (Host * DomEvent)) (p : Page) :
  0 < samplingFreq (settings p) ->
  let keptEvents := recorded (samplingFreq (settings p)) (time p) es in
  added p (handleAll getXPath es p) = map (rowOf getXPath) keptEvents /\
  spaced (samplingFreq (settings p)) (time p) (times keptEvents) /\
  time (handleAll getXPath es p) = last (times keptEvents) (time p).
Proof.
  intros Hf keptEvents. split; [|split].
  - apply added_app, handleAll_info.
  - now apply recorded_spaced.
  - apply handleAll_time.
Qed.

(** X5.  With sampling on, events whose clock readings all lie within
    [T] ms of the clock of the page leave at most [T / samplingFreq]
    rows, however many they are. *)
Theorem X5_rate_bound (es : list (Host * DomEvent)) (p : Page) (T : Z) :
  0 < samplingFreq (settings p) -> 0 <= T ->
  (forall he, In he es -> getTime (fst he) <= time p + T) ->
  Z.of_nat (List.length (added p (handleAll getXPath es p)))
  * samplingFreq (settings p) <= T.
Proof.
  intros Hf HT Hall.
  rewrite (added_app p _ _ (handleAll_info es p)), length_map.
  now apply recorded_count.
Qed.

(** *** Touch events *)

Lemma touchesOf_time (e : TouchEvent) (touches : list (Host * @DomEvent Node)) (t : Z) :
  changedTouches e = Some touches ->
  (forall ht, In ht touches -> getTime (fst ht) = t) ->
  forall he, In he (touchesOf e) -> getTime (fst he) = t.
Proof.
  intros Hc Hall he Hin. unfold touchesOf in Hin. rewrite Hc in Hin.
  apply in_map_iff in Hin as (ht & <- & Hin). simpl. now apply Hall.
Qed.

(** X6.  With sampling on, a touch event whose touches are all handled
    at the same clock reading leaves at most one row, that of its first
    touch, however many fingers moved: once the first touch is recorded
    the clock stands at that reading and the others are dropped. *)
Theorem X6_one_row_per_instant (e : TouchEvent)
    (touches : list (Host * DomEvent)) (t : Z) (p : Page) :
  0 < samplingFreq (settings p) ->
  changedTouches e = Some touches ->
  (forall ht, In ht touches -> getTime (fst ht) = t) ->
  (List.length (added p (touchHandler getXPath e p)) <= 1)%nat /\
  added p (touchHandler getXPath e p)
  = match touchesOf e with
    | first :: _ =>
        if samplingFreq (settings p) <=? t - time p
        then [rowOf getXPath first]
        else []
    | [] => []
    end.
Proof.
  intros Hf Hc Hall.
  pose proof (touchesOf_time e touches t Hc Hall) as Ht.
  assert (E : added p (touchHandler getXPath e p)
              = map (rowOf getXPath)
                  (recorded (samplingFreq (settings p)) (time p) (touchesOf e))).
  { apply added_app. rewrite touchHandler_handleAll. apply handleAll_info. }
  rewrite E. clear E.
  destruct (touchesOf e) as [|[h0 e0] rest]; [simpl; split; [lia | reflexivity]|].
  assert (H0 : getTime h0 = t) by (apply (Ht (h0, e0)); now left).
  simpl recorded. rewrite H0.
  destruct (Z.ltb_spec 0 (samplingFreq (settings p))); [|lia].
  destruct (Z.leb_spec (samplingFreq (settings p)) (t - time p)).
  - rewrite recorded_none; [simpl; split; [lia | reflexivity] | assumption |].
    intros he Hin. rewrite (Ht he (or_intror Hin)). lia.
  - rewrite recorded_none; [simpl; split; [lia | reflexivity] | assumption |].
    intros he Hin. rewrite (Ht he (or_intror Hin)). lia.
Qed.

(** X7.  A touch event keeps the rows that were in the buffer and adds at
    most one row per touch; without [changedTouches], or with none in
    it, it leaves the page as it was. *)
Theorem X7_touch_bounds (e : TouchEvent) (p : Page) :
  info (touchHandler getXPath e p)
  = (info p ++ added p (touchHandler getXPath e p))%list /\
  (List.length (added p (touchHandler getXPath e p))
   <= match changedTouches e with
      | Some touches => List.length touches
      | None => 0
      end)%nat /\
  (changedTouches e = None \/ changedTouches e = Some [] ->
   touchHandler getXPath e p = p).
Proof.
  assert (E : info (touchHandler getXPath e p)
              = (info p ++ map (rowOf getXPath)
                   (recorded (samplingFreq (settings p)) (time p) (touchesOf e)))%list).
  { rewrite touchHandler_handleAll. apply handleAll_info. }
  rewrite (added_app p _ _ E). split; [exact E|]. split.
  - rewrite length_map.
    pose proof (recorded_length (samplingFreq (settings p)) (time p) (touchesOf e)) as L.
    unfold touchesOf in L at 2. destruct (changedTouches e) as [touches|].
    + now rewrite length_map in L.
    + exact L.
  - intros [H | H]; unfold touchHandler; now rewrite H.
Qed.

(** *** What a visit keeps *)

(** X8.  The capture path only fills the buffer: a run of mouse, key,
    window and touch events sends no request, starts and stops no timer
    and leaves the id, the awaited answers and the settings alone. *)
Theorem X8_capture_sends_nothing (evs : list Event) (p p' : Page) :
  forallb isCapture evs = true -> run getXPath p evs = Some p' ->
  sent p' = sent p /\ uid p' = uid p /\ timeouts p' = timeouts p /\
  intervals p' = intervals p /\ awaiting p' = awaiting p /\
  settings p' = settings p.
Proof.
  revert p. induction evs as [|ev evs IH]; intros p Hc Hrun; simpl in Hrun.
  - injection Hrun as <-. now repeat split.
  - simpl in Hc. apply andb_prop in Hc as [Hev Hc].
    destruct (exec getXPath p ev) as [p1|] eqn:Hex; [|discriminate].
    destruct (IH p1 Hc Hrun) as (E1 & E2 & E3 & E4 & E5 & E6).
    inspect Hex.
    destruct ev as [h e | e | h | | r | | h reply]; try discriminate;
      injection Hex as <-.
    + destruct (eventHandler_frame h e p) as (F1 & F2 & F3 & F4 & F5 & F6).
      repeat split; congruence.
    + rewrite touchHandler_handleAll in *.
      destruct (handleAll_frame (touchesOf e) p) as (F1 & F2 & F3 & F4 & F5 & F6).
      repeat split; congruence.
Qed.

(** X9.  Throughout a visit the settings are the defaults with the keys
    present in the object given to [record] over them: nothing alters
    them once [record] has run. *)
Theorem X9_settings_in_force (t0 : Z) (config : Config) (evs : list Event) (p : Page) :
  run getXPath (start t0 config) evs = Some p -> settings p = merged config.
Proof. intro Hrun. now rewrite (settings_run evs _ p Hrun). Qed.

Lemma period_same (p q : Page) : settings q = settings p -> period q = period p.
Proof. unfold period. now intros ->. Qed.

Lemma timers_same (p q : Page) :
  settings q = settings p -> uid q = uid p -> timeouts q = timeouts p ->
  intervals q = intervals p -> awaiting q = awaiting p ->
  timersInStep p -> timersInStep q.
Proof.
  intros E1 E2 E3 E4 E5. unfold timersInStep.
  now rewrite (period_same p q E1), E2, E3, E4, E5.
Qed.

Lemma timers_exec (p : Page) (ev : Event) (p' : Page) :
  phase p -> timersInStep p -> isUnload ev = false ->
  exec getXPath p ev = Some p' -> timersInStep p'.
Proof.
  intros Hph (Hto & Haw & Hin) Hev Hex. inspect Hex.
  destruct ev as [h e | e | h | | r | | h reply]; try discriminate.
  - injection Hex as <-.
    destruct (eventHandler_frame h e p) as (F1 & F2 & F3 & F4 & F5 & _).
    now apply (timers_same p).
  - injection Hex as <-. rewrite touchHandler_handleAll.
    destruct (handleAll_frame (touchesOf e) p) as (F1 & F2 & F3 & F4 & F5 & _).
    now apply (timers_same p).
  - destruct (timeouts p) as [|d rest] eqn:Et; [discriminate|].
    injection Hex as <-. rewrite initNewData_async.
    by_phase Hph. assert (rest = []) as -> by congruence.
    unfold timersInStep, period. simpl.
    rewrite H3. split; [now left|]. split; [lia|]. exact Hin.
  - destruct (intervals p) as [|d rest] eqn:Ei; [discriminate|].
    injection Hex as <-.
    destruct (appendData_frame true None p) as (F1 & F2 & F3 & F4 & F5 & _).
    apply (timers_same p); try assumption. unfold timersInStep. now rewrite Ei.
  - destruct (awaiting p) as [|n] eqn:Ew; [discriminate|].
    injection Hex as <-. by_phase Hph.
    unfold timersInStep, period, setUserId. simpl.
    destruct (truthy (parseInt r)) eqn:Et; simpl; rewrite ?Et, H2, ?H4;
      (split; [now left|]); (split; [lia|]); reflexivity.
  - destruct (awaiting p) as [|n] eqn:Ew; [discriminate|].
    injection Hex as <-. by_phase Hph.
    unfold timersInStep, period. simpl. rewrite H2, H4, H5.
    split; [now left|]. split; [lia|]. reflexivity.
Qed.

Lemma timers_run (evs : list Event) (p p' : Page) :
  phase p -> timersInStep p ->
  forallb (fun ev => negb (isUnload ev)) evs = true ->
  run getXPath p evs = Some p' -> timersInStep p'.
Proof.
  revert p. induction evs as [|ev evs IH]; intros p Hph Ht Hev Hrun; simpl in Hrun.
  - now injection Hrun as <-.
  - simpl in Hev. apply andb_prop in Hev as [Hev Hevs]. apply negb_true_iff in Hev.
    destruct (exec getXPath p ev) as [p1|] eqn:Hex; [|discriminate].
    apply (IH p1); try assumption.
    + now apply (phase_exec p ev).
    + now apply (timers_exec p ev).
Qed.

(** X10.  In a visit begun by one call of [record], until the unload
    handler first runs, there is at most the one deferred post, of delay
    [postInterval] seconds, at most one answer is awaited, and the
    periodic post runs exactly when a non-zero id is stored, once, with
    period [postInterval] seconds. *)
Theorem X10_timers_in_step (t0 : Z) (config : Config) (evs : list Event) (p : Page) :
  run getXPath (start t0 config) evs = Some p ->
  forallb (fun ev => negb (isUnload ev)) evs = true ->
  timersInStep p.
Proof.
  intros Hrun Hev.
  apply (timers_run evs (start t0 config) p); try assumption.
  - apply phase_start.
  - unfold timersInStep, period. simpl.
    split; [now right|]. split; [lia | reflexivity].
Qed.

(** *** The requests of a visit *)

(** What a step hands to the transport: nothing, or one request, which
    is the init or the append request for the rows of the buffer. *)
Lemma exec_sent (p : Page) (ev : Event) (p' : Page) :
  exec getXPath p ev = Some p' ->
  (isUnload ev = false /\ sent p' = sent p /\ timeouts p' = timeouts p) \/
  (isUnload ev = false /\
   exists h, sent p' = (sent p ++ [initRequest h true (settings p) (info p)])%list
             /\ exists d, timeouts p = d :: timeouts p') \/
  (isUnload ev = false /\
   sent p' = (sent p ++ [appendRequest true (settings p) (uid p) (info p)])%list
   /\ timeouts p' = timeouts p /\ intervals p <> []) \/
  (exists h reply,
     ev = Unload h reply /\ timeouts p' = timeouts p /\
     sent p' = (sent p ++ [if truthy (uid p)
                           then appendRequest false (settings p) (uid p) (info p)
                           else initRequest h false (settings p) (info p)])%list).
Proof.
  intro Hex. inspect Hex.
  destruct ev as [h e | e | h | | r | | h reply].
  - injection Hex as <-. left.
    destruct (eventHandler_frame h e p) as (_ & _ & F3 & _ & _ & F6).
    repeat split; congruence.
  - injection Hex as <-. left. rewrite touchHandler_handleAll.
    destruct (handleAll_frame (touchesOf e) p) as (_ & _ & F3 & _ & _ & F6).
    repeat split; congruence.
  - destruct (timeouts p) as [|d rest] eqn:Et; [discriminate|]. injection Hex as <-.
    right. left. split; [reflexivity|].
    exists h. split; [now rewrite initNewData_sent|].
    exists d. now rewrite initNewData_async.
  - destruct (intervals p) as [|d rest] eqn:Ei; [discriminate|]. injection Hex as <-.
    right. right. left.
    destruct (appendData_frame true None p) as (_ & _ & F3 & _).
    split; [reflexivity|]. split; [apply appendData_sent|]. now split.
  - destruct (awaiting p) as [|n]; [discriminate|]. injection Hex as <-.
    left. destruct (setUserId_frame r (setAwaiting n p)) as (_ & _ & _ & F3 & _ & E).
    split; [reflexivity|]. split; [exact E | exact F3].
  - destruct (awaiting p) as [|n]; [discriminate|]. injection Hex as <-. now left.
  - injection Hex as <-. right. right. right. exists h, reply.
    split; [reflexivity|]. split; [apply flush_frame | apply flush_sent].
Qed.




Lemma syncs_app (l : list Request) (r : Request) :
  syncs (l ++ [r]) = (syncs l + if async r then 0 else 1)%nat.
Proof.
  unfold syncs. rewrite filter_app, length_app. simpl.
  now destruct (async r).
Qed.

Lemma unloads_cons (ev : @Event Node) (evs : list Event) :
  unloads (ev :: evs) = ((if isUnload ev then 1 else 0) + unloads evs)%nat.
Proof. unfold unloads. simpl. now destruct (isUnload ev). Qed.

Lemma syncs_exec (p : Page) (ev : Event) (p' : Page) :
  exec getXPath p ev = Some p' ->
  syncs (sent p') = (syncs (sent p) + if isUnload ev then 1 else 0)%nat.
Proof.
  intro Hex.
  destruct (exec_sent p ev p' Hex)
    as [(Hu & E & _) | [(Hu & h & E & _) | [(Hu & E & _) | (h & reply & -> & _ & E)]]];
    rewrite E, ?syncs_app, ?Hu; simpl; try lia.
  destruct (truthy (uid p)); simpl; lia.
Qed.

(** X12.  Only [flush] sends synchronously: over any run, the number of
    synchronous requests grows by the number of times the unload handler
    has run; the requests of every other step are asynchronous. *)
Theorem X12_synchronous_only_at_unload (evs : list Event) (p p' : Page) :
  run getXPath p evs = Some p' ->
  syncs (sent p') = (syncs (sent p) + unloads evs)%nat.
Proof.
  revert p. induction evs as [|ev evs IH]; intros p Hrun; simpl in Hrun.
  - injection Hrun as <-. unfold unloads. simpl. lia.
  - destruct (exec getXPath p ev) as [p1|] eqn:Hex; [|discriminate].
    rewrite (IH p1 Hrun), (syncs_exec p ev p1 Hex), unloads_cons. lia.
Qed.

Lemma inits_app (l : list Request) (r : Request) :
  inits (l ++ [r]) = (inits l + if callback r then 1 else 0)%nat.
Proof.
  unfold inits. rewrite filter_app, length_app. simpl.
  now destruct (callback r).
Qed.

Lemma head_app (l : list Request) (r q : Request) (rest : list Request) :
  (l ++ [r])%list = q :: rest ->
  (l = [] /\ q = r) \/ exists rest', l = q :: rest'.
Proof.
  destruct l as [|q' l']; simpl; intro E; injection E as E1 E2.
  - left. now split.
  - right. exists l'. now rewrite E1.
Qed.

(** A step sends at most one more init request than it uses up deferred
    posts, unless it is a run of [flush]. *)
Lemma inits_exec (p : Page) (ev : Event) (p' : Page) :
  exec getXPath p ev = Some p' ->
  (inits (sent p') + List.length (timeouts p')
   <= inits (sent p) + List.length (timeouts p) + if isUnload ev then 1 else 0)%nat.
Proof.
  intro Hex.
  destruct (exec_sent p ev p' Hex)
    as [(Hu & E & Et) | [(Hu & h & E & d & Et) | [(Hu & E & Et & _)
                                                 | (h & reply & -> & Et & E)]]];
    rewrite E, ?inits_app, ?Hu, Et; simpl; try lia.
  destruct (truthy (uid p)); simpl; lia.
Qed.

(** Before anything is sent no id is stored, no timer runs and no
    answer is awaited, so that the first request is an init request. *)
Lemma first_exec (p : Page) (ev : Event) (p' : Page) :
  (sent p = [] -> truthy (uid p) = false /\ intervals p = [] /\ awaiting p = 0%nat) ->
  (forall r rest, sent p = r :: rest -> exists h a s rows, r = initRequest h a s rows) ->
  exec getXPath p ev = Some p' ->
  (sent p' = [] -> truthy (uid p') = false /\ intervals p' = [] /\ awaiting p' = 0%nat) /\
  (forall r rest, sent p' = r :: rest -> exists h a s rows, r = initRequest h a s rows).
Proof.
  intros Hnone Hhead Hex.
  assert (Hnew : forall q, (exists h a s rows, q = initRequest h a s rows) \/ sent p <> [] ->
                 sent p' = (sent p ++ [q])%list ->
                 (sent p' = [] ->
                  truthy (uid p') = false /\ intervals p' = [] /\ awaiting p' = 0%nat) /\
                 (forall r rest, sent p' = r :: rest ->
                  exists h a s rows, r = initRequest h a s rows)).
  { intros q Hq E. rewrite E. split; [intro C; now destruct (sent p)|].
    intros r rest Hr. apply head_app in Hr as [[Hs ->] | (rest' & Hs)].
    - destruct Hq as [Hq | Hq]; [exact Hq | contradiction].
    - now apply (Hhead r rest'). }
  pose proof Hex as Hex'. inspect Hex'.
  destruct ev as [h e | e | h | | r | | h reply].
  - injection Hex' as <-.
    destruct (eventHandler_frame h e p) as (_ & F2 & _ & F4 & F5 & F6).
    rewrite F2, F4, F5, F6. now split.
  - injection Hex' as <-. rewrite touchHandler_handleAll.
    destruct (handleAll_frame (touchesOf e) p) as (_ & F2 & _ & F4 & F5 & F6).
    rewrite F2, F4, F5, F6. now split.
  - destruct (timeouts p) as [|d rest]; [discriminate|]. injection Hex' as <-.
    apply (Hnew (initRequest h true (settings p) (info p)));
      [left; now exists h, true, (settings p), (info p) | now rewrite initNewData_sent].
  - destruct (intervals p) as [|d rest] eqn:Ei; [discriminate|]. injection Hex' as <-.
    apply (Hnew (appendRequest true (settings p) (uid p) (info p)));
      [|apply appendData_sent].
    right. intro C. destruct (Hnone C) as (_ & C2 & _). congruence.
  - destruct (awaiting p) as [|n] eqn:Ew; [discriminate|]. injection Hex' as <-.
    destruct (setUserId_frame r (setAwaiting n p)) as (_ & _ & _ & _ & _ & F6).
    rewrite F6. simpl sent. split; [|exact Hhead].
    intro C. destruct (Hnone C) as (_ & _ & C3). congruence.
  - destruct (awaiting p) as [|n] eqn:Ew; [discriminate|]. injection Hex' as <-.
    simpl. split; [|exact Hhead].
    intro C. destruct (Hnone C) as (_ & _ & C3). congruence.
  - injection Hex' as <-.
    destruct (truthy (uid p)) eqn:Et.
    + apply (Hnew (appendRequest false (settings p) (uid p) (info p)));
        [|now rewrite flush_sent, Et].
      right. intro C. destruct (Hnone C) as (C1 & _). congruence.
    + apply (Hnew (initRequest h false (settings p) (info p)));
        [left; now exists h, false, (settings p), (info p) | now rewrite flush_sent, Et].
Qed.

(** X13.  In a visit begun by one call of [record], the first request
    handed to the transport is always an init request; and there are at
    most as many init requests as one, the deferred one, plus the number
    of times the unload handler has run. *)
Theorem X13_init_requests (t0 : Z) (config : Config) (evs : list Event) (p : Page) :
  run getXPath (start t0 config) evs = Some p ->
  (forall r rest, sent p = r :: rest -> exists h a s rows, r = initRequest h a s rows) /\
  (inits (sent p) <= 1 + unloads evs)%nat.
Proof.
  intro Hrun. split.
  - assert (H0 : (sent (start t0 config) = [] ->
                  truthy (uid (start t0 config)) = false /\
                  intervals (start t0 config) = [] /\
                  awaiting (start t0 config) = 0%nat) /\
                 (forall r rest, sent (start t0 config) = r :: rest ->
                  exists h a s rows, r = initRequest h a s rows))
      by (split; [now intros _ | discriminate]).
    revert H0 Hrun. generalize (start t0 config). clear t0 config.
    induction evs as [|ev evs IH]; intros q H0 Hrun; simpl in Hrun.
    + injection Hrun as <-. apply H0.
    + destruct (exec getXPath q ev) as [q1|] eqn:Hex; [|discriminate].
      apply (IH q1); [|assumption].
      now apply (first_exec q ev q1 (proj1 H0) (proj2 H0)).
  - assert (H : (inits (sent p) + List.length (timeouts p)
                 <= inits (sent (start t0 config))
                    + List.length (timeouts (start t0 config)) + unloads evs)%nat).
    { revert Hrun. generalize (start t0 config). clear t0 config.
      induction evs as [|ev evs IH]; intros q Hrun; simpl in Hrun.
      - injection Hrun as <-. unfold unloads. simpl. lia.
      - destruct (exec getXPath q ev) as [q1|] eqn:Hex; [|discriminate].
        pose proof (IH q1 Hrun) as H1. pose proof (inits_exec q ev q1 Hex) as H2.
        rewrite unloads_cons. destruct (isUnload ev); lia. }
    simpl in H. change (inits []) with 0%nat in H. lia.
Qed.

(** *** The rows of a visit *)

Lemma eventHandler_added (h : Host) (e : DomEvent) (p : Page) :
  info (eventHandler getXPath h e p)
  = (info p ++ added p (eventHandler getXPath h e p))%list.
Proof.
  pose proof (handleAll_info [(h, e)] p) as E.
  change (handleAll getXPath [(h, e)] p) with (eventHandler getXPath h e p) in E.
  now rewrite (added_app p _ _ E).
Qed.

Lemma touchHandler_added (e : TouchEvent) (p : Page) :
  info (touchHandler getXPath e p)
  = (info p ++ added p (touchHandler getXPath e p))%list.
Proof.
  assert (E : info (touchHandler getXPath e p)
              = (info p ++ map (rowOf getXPath)
                   (recorded (samplingFreq (settings p)) (time p) (touchesOf e)))%list).
  { rewrite touchHandler_handleAll. apply handleAll_info. }
  now rewrite (added_app p _ _ E).
Qed.

(** A step either pushes rows and sends nothing, or sends one request
    that carries the whole buffer and leaves it empty. *)
Lemma exec_rows (p : Page) (ev : Event) (p' : Page) :
  exec getXPath p ev = Some p' ->
  (sent p' = sent p /\ info p' = (info p ++ pushed getXPath p ev)%list) \/
  (exists r, sent p' = (sent p ++ [r])%list /\ carries r (info p) /\
             info p' = [] /\ pushed getXPath p ev = []).
Proof.
  intro Hex. inspect Hex.
  destruct ev as [h e | e | h | | r | | h reply].
  - injection Hex as <-. left.
    destruct (eventHandler_frame h e p) as (_ & _ & _ & _ & _ & F6).
    split; [exact F6 | apply eventHandler_added].
  - injection Hex as <-. left.
    pose proof (touchHandler_handleAll e p) as E.
    destruct (handleAll_frame (touchesOf e) p) as (_ & _ & _ & _ & _ & F6).
    rewrite <- E in F6.
    split; [exact F6 | apply touchHandler_added].
  - destruct (timeouts p) as [|d rest]; [discriminate|]. injection Hex as <-.
    right. exists (initRequest h true (settings p) (info p)).
    split; [now rewrite initNewData_sent|].
    split; [left; now exists h, (settings p)|]. now rewrite initNewData_async.
  - destruct (intervals p) as [|d rest]; [discriminate|]. injection Hex as <-.
    right. exists (appendRequest true (settings p) (uid p) (info p)).
    split; [apply appendData_sent|].
    split; [right; now exists (uid p)|]. now rewrite appendData_unfold.
  - destruct (awaiting p) as [|n]; [discriminate|]. injection Hex as <-.
    left. destruct (setUserId_frame r (setAwaiting n p)) as (_ & _ & F3 & _ & _ & F6).
    split; [exact F6|]. simpl. now rewrite app_nil_r.
  - destruct (awaiting p) as [|n]; [discriminate|]. injection Hex as <-.
    left. split; [reflexivity|]. simpl. now rewrite app_nil_r.
  - injection Hex as <-. right.
    exists (if truthy (uid p)
            then appendRequest false (settings p) (uid p) (info p)
            else initRequest h false (settings p) (info p)).
    split; [apply flush_sent|]. split; [|split; [apply flush_frame|reflexivity]].
    destruct (truthy (uid p)); [right; now exists (uid p) | left; now exists h, (settings p)].
Qed.

Lemma rows_run (evs : list Event) (p p' : Page) :
  run getXPath p evs = Some p' ->
  exists reqs batches,
    sent p' = (sent p ++ reqs)%list /\ Forall2 carries reqs batches /\
    (info p ++ trail getXPath p evs)%list = (List.concat batches ++ info p')%list.
Proof.
  revert p. induction evs as [|ev evs IH]; intros p Hrun; simpl in Hrun.
  - injection Hrun as <-. exists [], []. simpl.
    split; [now rewrite app_nil_r|]. split; [constructor | now rewrite app_nil_r].
  - simpl trail. destruct (exec getXPath p ev) as [p1|] eqn:Hex; [|discriminate].
    destruct (IH p1 Hrun) as (reqs & batches & Hs & Hc & Hi).
    destruct (exec_rows p ev p1 Hex) as [(Es & Ei) | (r & Es & Er & Ei & Ep)].
    + exists reqs, batches. split; [congruence|]. split; [assumption|].
      now rewrite app_assoc, <- Ei.
    + exists (r :: reqs), (info p :: batches).
      split; [rewrite Hs, Es; now rewrite <- app_assoc|].
      split; [now constructor|].
      rewrite Ep. simpl. rewrite Ei in Hi. simpl in Hi.
      now rewrite Hi, <- app_assoc.
Qed.

(** X14.  No row is lost or doubled on its way to the transport: in any
    run, the rows that were in the buffer followed by the rows the
    events of the run have pushed are, in order, the rows carried by the
    requests the run has sent, one batch per request, followed by the
    rows left in the buffer. *)
Theorem X14_rows_conserved (evs : list Event) (p p' : Page) :
  run getXPath p evs = Some p' ->
  exists reqs batches,
    sent p' = (sent p ++ reqs)%list /\ Forall2 carries reqs batches /\
    (info p ++ trail getXPath p evs)%list = (List.concat batches ++ info p')%list.
Proof.
  intro Hrun. destruct (rows_run evs p p' Hrun) as (reqs & batches & Hs & Hc & Hr).
  exists reqs, batches. split; [exact Hs|]. split; [exact Hc | exact Hr].
Qed.

(** X15.  Right after a run of [flush] the buffer is empty, and the
    requests the visit has sent so far carry, batch after batch and in
    order, exactly the rows its events have pushed. *)
Theorem X15_all_rows_handed_over (t0 : Z) (config : Config)
    (evs : list Event) (h : Host) (reply : option string) (p' : Page) :
  run getXPath (start t0 config) (evs ++ [Unload h reply]) = Some p' ->
  info p' = [] /\
  exists batches,
    Forall2 carries (sent p') batches /\
    List.concat batches = trail getXPath (start t0 config) (evs ++ [Unload h reply]).
Proof.
  intro Hrun.
  assert (Hi : info p' = []).
  { apply run_split in Hrun as (q & q' & _ & Hex & Hlast).
    simpl in Hlast. injection Hlast as <-. inspect Hex. injection Hex as <-.
    apply flush_frame. }
  split; [exact Hi|].
  destruct (rows_run _ _ p' Hrun) as (reqs & batches & Hs & Hc & Hr).
  exists batches. simpl in Hs, Hr. rewrite Hi, app_nil_r in Hr.
  split; [now rewrite Hs | now symmetry].
Qed.

Lemma capture_run (evs : list Event) (p p' : Page) :
  forallb isCapture evs = true -> run getXPath p evs = Some p' ->
  sent p' = sent p /\ uid p' = uid p /\ settings p' = settings p /\
  info p' = (info p ++ trail getXPath p evs)%list.
Proof.
  revert p. induction evs as [|ev evs IH]; intros p Hc Hrun; simpl in Hrun.
  - injection Hrun as <-. simpl. now rewrite app_nil_r.
  - simpl in Hc. apply andb_prop in Hc as [Hev Hc]. simpl trail.
    destruct (exec getXPath p ev) as [p1|] eqn:Hex; [|discriminate].
    destruct (IH p1 Hc Hrun) as (E1 & E2 & E3 & E5).
    assert (F : sent p1 = sent p /\ uid p1 = uid p /\ settings p1 = settings p /\
                info p1 = (info p ++ pushed getXPath p ev)%list).
    { inspect Hex.
      destruct ev as [h e | e | h | | r | | h reply]; try discriminate;
        injection Hex as <-.
      - destruct (eventHandler_frame h e p) as (F1 & F2 & _ & _ & _ & F6).
        repeat split; try assumption. apply eventHandler_added.
      - pose proof (touchHandler_handleAll e p) as E.
        destruct (handleAll_frame (touchesOf e) p) as (F1 & F2 & _ & _ & _ & F6).
        rewrite <- E in F1, F2, F6.
        repeat split; try assumption. apply touchHandler_added. }
    destruct F as (F1 & F2 & F3 & F5).
    repeat split; try congruence. now rewrite E5, F5, app_assoc.
Qed.

Lemma exec_timeout (p : Page) (h : Host) (d : Z) (rest : list Z) :
  timeouts p = d :: rest ->
  exec getXPath p (TimeoutFires h)
  = Some (initNewData h true None (setTimeouts rest p)).
Proof. intro Ht. unfold exec. now rewrite Ht. Qed.

Lemma exec_response (p : Page) (r : string) (n : nat) :
  awaiting p = S n ->
  exec getXPath p (Response r) = Some (setUserId r (setAwaiting n p)).
Proof. intro Hw. unfold exec. now rewrite Hw. Qed.

Lemma setUserId_id (r : string) (n : Z) (p : Page) :
  parseInt r = Num n -> n <> 0 ->
  setUserId r p = setInterval (period p) (setUid (Num n) p).
Proof.
  intros Hr Hn. unfold setUserId. rewrite Hr. simpl uid.
  now rewrite (truthy_nonzero n Hn).
Qed.

(** X16.  A second call of [record] arms a second deferred post.  When
    both come due and both are answered with a non-zero id, two init
    requests have been sent, the id stored is that of the second answer,
    and two periodic timers run. *)
Theorem X16_record_twice (t0 : Z) (c1 c2 : Config) (h1 h2 : Host)
    (r1 r2 : string) (n1 n2 : Z) :
  parseInt r1 = Num n1 -> n1 <> 0 -> parseInt r2 = Num n2 -> n2 <> 0 ->
  exists p',
    run getXPath (record c2 (start t0 c1))
      [TimeoutFires h1; TimeoutFires h2; Response r1; Response r2] = Some p' /\
    inits (sent p') = 2%nat /\ uid p' = Num n2 /\
    intervals p' = [period p'; period p'].
Proof.
  intros H1 Hn1 H2 Hn2.
  set (p0 := record c2 (start t0 c1)).
  set (d2 := postInterval (settings p0) * 1000).
  set (q1 := setInfo [] (setAwaiting 1
               (setSent [initRequest h1 true (settings p0) []] (setTimeouts [d2] p0)))).
  set (q2 := setInfo [] (setAwaiting 2
               (setSent [initRequest h1 true (settings p0) [];
                         initRequest h2 true (settings p0) []] (setTimeouts [] p0)))).
  set (q3 := setInterval (period p0) (setUid (Num n1) (setAwaiting 1 q2))).
  set (q4 := setInterval (period p0) (setUid (Num n2) (setAwaiting 0 q3))).
  assert (S1 : exec getXPath p0 (TimeoutFires h1) = Some q1).
  { rewrite (exec_timeout p0 h1 (postInterval (merged c1) * 1000) [d2]);
      [now rewrite initNewData_async | reflexivity]. }
  assert (S2 : exec getXPath q1 (TimeoutFires h2) = Some q2).
  { rewrite (exec_timeout q1 h2 d2 []);
      [now rewrite initNewData_async | reflexivity]. }
  assert (S3 : exec getXPath q2 (Response r1) = Some q3).
  { rewrite (exec_response q2 r1 1); [|reflexivity].
    now rewrite (setUserId_id r1 n1). }
  assert (S4 : exec getXPath q3 (Response r2) = Some q4).
  { rewrite (exec_response q3 r2 0); [|reflexivity].
    now rewrite (setUserId_id r2 n2). }
  exists q4. split.
  - cbn [run]. now rewrite S1, S2, S3, S4.
  - split; [reflexivity|]. split; reflexivity.
Qed.

(** X17.  A visit that ends before the deferred post has come due still
    posts: after any run of captured events, [flush] sends one request,
    a synchronous init request that carries all the rows the events have
    pushed. *)
Theorem X17_short_visit (t0 : Z) (config : Config) (evs : list Event)
    (h : Host) (reply : option string) (p' : Page) :
  forallb isCapture evs = true ->
  run getXPath (start t0 config) (evs ++ [Unload h reply]) = Some p' ->
  sent p'
  = [initRequest h false (merged config) (trail getXPath (start t0 config) evs)].
Proof.
  intros Hc Hrun. rewrite run_app in Hrun.
  destruct (run getXPath (start t0 config) evs) as [p1|] eqn:H1; [|discriminate].
  destruct (capture_run evs _ p1 Hc H1) as (E1 & E2 & E3 & E5).
  simpl in E1, E2, E3, E5. cbn [run] in Hrun. unfold exec in Hrun.
  injection Hrun as <-.
  rewrite flush_sent, E1, E2, E3, E5. reflexivity.
Qed.

End Properties.

(** ** The properties on the small page *)

(** Scenario 1: with sampling off, three moves at 0, 5 and 10 ms leave
    three rows, in that order. *)
Example three_moves_unsampled :
  info (handleAll pathOf
          [(hostAt 0, mouseMove 1 1); (hostAt 5, mouseMove 2 2); (hostAt 10, mouseMove 3 3)]
          (start 0 (withSampling 0)))
  = ["0 0 1 1 mousemove /html/body/div"; "0 5 2 2 mousemove /html/body/div";
     "0 10 3 3 mousemove /html/body/div"].
Proof. reflexivity. Qed.

(** Scenario 2: with [samplingFreq] 100 and a clock that is 100 ms old,
    of the moves at 0, 50 and 150 ms the first and the last are kept. *)
Example three_moves_sampled :
  info (handleAll pathOf
          [(hostAt 0, mouseMove 1 1); (hostAt 50, mouseMove 2 2); (hostAt 150, mouseMove 3 3)]
          (start (-100) (withSampling 100)))
  = ["0 0 1 1 mousemove /html/body/div"; "0 150 3 3 mousemove /html/body/div"].
Proof. reflexivity. Qed.

Lemma C1_witness :
  eventHandler pathOf (hostAt 150) (mouseMove 3 3) (start 0 (withSampling 100))
  = kept pathOf (hostAt 150) (mouseMove 3 3) (start 0 (withSampling 100)) /\
  eventHandler pathOf (hostAt 50) (mouseMove 2 2) (start 0 (withSampling 100))
  = start 0 (withSampling 100) /\
  eventHandler pathOf (hostAt 50) (mouseMove 2 2) (start 0 (withSampling 0))
  = kept pathOf (hostAt 50) (mouseMove 2 2) (start 0 (withSampling 0)).
Proof.
  destruct (C1_sampling_gate pathOf (hostAt 150) (mouseMove 3 3)
              (start 0 (withSampling 100))) as (_ & Hkeep & _).
  destruct (C1_sampling_gate pathOf (hostAt 50) (mouseMove 2 2)
              (start 0 (withSampling 100))) as (_ & _ & Hdrop & _).
  destruct (C1_sampling_gate pathOf (hostAt 50) (mouseMove 2 2)
              (start 0 (withSampling 0))) as (Hoff & _).
  split; [|split].
  - apply Hkeep; simpl; lia.
  - apply Hdrop; simpl; lia.
  - apply Hoff; simpl; lia.
Defined.

(** A synchronous request that fails, and an append, whose outcome is
    never looked at: the row that was in the buffer is gone. *)
Lemma C2_failed_send_empties_buffer :
  let p := handleAll pathOf [(hostAt 100, mouseMove 3 4)] (start 0 noConfig) in
  info p = ["0 100 3 4 mousemove /html/body/div"] /\
  info (initNewData (hostAt 200) false None p) = [] /\
  info (initNewData (hostAt 200) false None p) <> info p /\
  info (appendData false None p) <> info p.
Proof. cbv zeta. repeat split; discriminate. Qed.





(** The page lives on after the unload handler has run, as it does when
    the visitor stays: the timer is still running, and an event and a
    tick later an asynchronous append is posted after the synchronous
    one. *)
Lemma C5_posts_after_flush :
  exists p,
    run pathOf twoRowsPage
      [Unload (hostAt 40000) None; Dom (hostAt 41000) (mouseMove 9 9); IntervalFires]
    = Some p /\
    sent p
    = (sent twoRowsPage
       ++ [appendRequest false defaults (Num 42)
             ["0 31000 5 6 mousemove /html/body/div";
              "0 32000 7 8 mousemove /html/body/div"];
           appendRequest true defaults (Num 42)
             ["0 41000 9 9 mousemove /html/body/div"]])%list.
Proof. eexists. split; reflexivity. Qed.

(** Scenario 5: the page is unloaded with two rows in the buffer and the
    id 42. *)
Lemma C5_witness :
  exec pathOf twoRowsPage (Unload (hostAt 40000) None)
  = Some (flush (hostAt 40000) None twoRowsPage) /\
  sent (flush (hostAt 40000) None twoRowsPage)
  = (sent twoRowsPage
     ++ [{| url := Some "http://my.server.org/save.script"; async := false;
            postdata := "uid=42&info=0 31000 5 6 mousemove /html/body/div,0 32000 7 8 mousemove /html/body/div&action=append";
            callback := false |}])%list /\
  info (flush (hostAt 40000) None twoRowsPage) = [] /\
  In 30000 (intervals (flush (hostAt 40000) None twoRowsPage)).
Proof.
  destruct (C5_flush_once pathOf twoRowsPage (hostAt 40000) None _ eq_refl)
    as ((req & H1 & _ & H2) & Hi & _ & _ & Ht).
  split; [reflexivity|]. split; [|split].
  - rewrite H1, H2. reflexivity.
  - exact Hi.
  - apply Ht. now left.
Defined.





Lemma C8_witness :
  exists p',
    run pathOf (start 0 (withSampling 100))
      (domEvents [(hostAt 100, mouseMove 1 1); (hostAt 150, mouseMove 2 2);
                  (hostAt 250, mouseMove 3 3)]) = Some p' /\
    info p' = ["0 100 1 1 mousemove /html/body/div"; "0 250 3 3 mousemove /html/body/div"].
Proof.
  destruct (C8_info_order pathOf
              [(hostAt 100, mouseMove 1 1); (hostAt 150, mouseMove 2 2);
               (hostAt 250, mouseMove 3 3)]
              (start 0 (withSampling 100))) as (p' & H1 & H2 & _).
  exists p'. split; [exact H1 | exact H2].
Defined.

(** With the default sampling (10) the second of two touches handled in
    the same millisecond is dropped: one row, not two. *)
Lemma C9_second_touch_dropped :
  info (touchHandler pathOf (twoFingers 1000) (start 0 noConfig))
  = ["0 1000 10 20 touchmove /html/body/div"] /\
  List.length (info (touchHandler pathOf (twoFingers 1000) (start 0 noConfig))) <> 2%nat.
Proof. split; [reflexivity | discriminate]. Qed.

Lemma C9_witness :
  samplingFreq (settings (start 0 (withSampling 0))) <= 0 /\
  info (touchHandler pathOf (twoFingers 1000) (start 0 (withSampling 0)))
  = ["0 1000 10 20 touchmove /html/body/div"; "1 1000 30 40 touchmove /html/body/div"].
Proof.
  split; [simpl; lia|].
  destruct (C9_two_touches pathOf "touchmove" (hostAt 1000) (hostAt 1000)
              (finger 0 10 20) (finger 1 30 40) (start 0 (withSampling 0)))
    as (_ & _ & _ & _ & Hoff).
  apply Hoff. simpl; lia.
Defined.

(** The answers "-5" and " 42" do not start with a digit, and yet an id
    is stored, the timer is started and [flush] posts an append. *)
Lemma C10_sign_and_space_are_read :
  startsWithDigit "-5" = false /\ startsWithDigit " 42" = false /\
  uid (setUserId "-5" pendingPage) = Num (-5) /\
  uid (setUserId " 42" pendingPage) = Num 42 /\
  intervals (setUserId " 42" pendingPage) = [30000] /\
  sent (flush (hostAt 40000) None (setUserId " 42" pendingPage))
  = (sent pendingPage ++ [appendRequest false defaults (Num 42) []])%list.
Proof. repeat split. Qed.

Lemma C10_witness :
  allWhiteSpace (nbsp ++ " ") = true /\ 42 <> 0 /\ Z.abs 42 <= twoTo53 /\
  startsWithDigit "abc" = false /\
  startsWithDigit (snd (signOf (trimStart "error"))) = false /\
  uid (setUserId ((nbsp ++ " ") ++ "42abc") pendingPage) = Num 42 /\
  uid (setUserId "error" pendingPage) = NaN /\
  sent (flush (hostAt 40000) None (setUserId "error" pendingPage))
  = (sent pendingPage ++ [initRequest (hostAt 40000) false defaults []])%list.
Proof.
  assert (Hn : 42 <> 0) by discriminate.
  assert (Hb : Z.abs 42 <= twoTo53) by (unfold twoTo53; simpl; lia).
  destruct (C10_prefix_parsing pendingPage) as (Hyes & Hno).
  destruct (Hyes (nbsp ++ " ") 42 "abc" eq_refl Hn Hb eq_refl) as (H1 & _).
  destruct (Hno "error" eq_refl) as (H2 & _ & H3).
  split; [reflexivity|]. split; [exact Hn|]. split; [exact Hb|].
  split; [reflexivity|]. split; [reflexivity|]. split; [exact H1|].
  split; [exact H2|]. apply H3.
Defined.

(** ** The further properties on the small page *)

Lemma X2_witness :
  pageX (mouseMove (-3) 4) = Some (-3) /\ pageY (mouseMove (-3) 4) = Some 4 /\
  getMousePos (hostAt 100) (mouseMove (-3) 4) = {| x := 0; y := 4 |}.
Proof.
  split; [reflexivity|]. split; [reflexivity|].
  apply (X2_page_coordinates_first (hostAt 100) (mouseMove (-3) 4) (-3) 4);
    [reflexivity | reflexivity | left; discriminate].
Defined.

Lemma X3_witness :
  getMousePos (hostAt 100)
    {| id := 0; type := "click"; pageX := None; pageY := Some 0;
       clientX := Some 7; clientY := Some 0; target := "/html/body" |}
  = {| x := 7; y := 0 |} /\
  getMousePos (hostAt 100)
    {| id := 0; type := "keydown"; pageX := None; pageY := None;
       clientX := None; clientY := None; target := "/html/body" |}
  = {| x := 0; y := 0 |}.
Proof.
  split.
  - apply (X3_client_coordinates_next (hostAt 100)
             {| id := 0; type := "click"; pageX := None; pageY := Some 0;
                clientX := Some 7; clientY := Some 0; target := "/html/body" |} 7 0);
      [reflexivity | reflexivity | reflexivity | reflexivity | left; discriminate].
  - apply (X3_client_coordinates_next (hostAt 100)
             {| id := 0; type := "keydown"; pageX := None; pageY := None;
                clientX := None; clientY := None; target := "/html/body" |} 0 0);
      reflexivity.
Defined.

Lemma X4_witness :
  0 < samplingFreq (settings (start 0 (withSampling 100))) /\
  spaced 100 0
    (times (recorded 100 0 [(hostAt 100, mouseMove 1 1); (hostAt 150, mouseMove 2 2);
                            (hostAt 250, mouseMove 3 3)])) /\
  time (handleAll pathOf [(hostAt 100, mouseMove 1 1); (hostAt 150, mouseMove 2 2);
                          (hostAt 250, mouseMove 3 3)] (start 0 (withSampling 100)))
  = 250.
Proof.
  assert (Hf : 0 < samplingFreq (settings (start 0 (withSampling 100))))
    by (simpl; lia).
  destruct (X4_recorded_spacing pathOf
              [(hostAt 100, mouseMove 1 1); (hostAt 150, mouseMove 2 2);
               (hostAt 250, mouseMove 3 3)] (start 0 (withSampling 100)) Hf)
    as (_ & H2 & H3).
  split; [exact Hf|]. split; [exact H2 | exact H3].
Defined.

Lemma X5_witness :
  0 < samplingFreq (settings (start 0 (withSampling 100))) /\ 0 <= 250 /\
  Z.of_nat (List.length
              (added (start 0 (withSampling 100))
                 (handleAll pathOf [(hostAt 100, mouseMove 1 1); (hostAt 150, mouseMove 2 2);
                                    (hostAt 250, mouseMove 3 3)]
                    (start 0 (withSampling 100))))) * 100 <= 250.
Proof.
  assert (Hf : 0 < samplingFreq (settings (start 0 (withSampling 100))))
    by (simpl; lia).
  assert (HT : 0 <= 250) by lia.
  split; [exact Hf|]. split; [exact HT|].
  apply (X5_rate_bound pathOf
           [(hostAt 100, mouseMove 1 1); (hostAt 150, mouseMove 2 2);
            (hostAt 250, mouseMove 3 3)] (start 0 (withSampling 100)) 250 Hf HT).
  intros he [<- | [<- | [<- | []]]]; simpl; lia.
Defined.

Lemma X6_witness :
  0 < samplingFreq (settings (start 0 noConfig)) /\
  added (start 0 noConfig) (touchHandler pathOf (twoFingers 1000) (start 0 noConfig))
  = ["0 1000 10 20 touchmove /html/body/div"].
Proof.
  assert (Hf : 0 < samplingFreq (settings (start 0 noConfig))) by (simpl; lia).
  split; [exact Hf|].
  refine (proj2 (X6_one_row_per_instant pathOf (twoFingers 1000)
                   [(hostAt 1000, finger 0 10 20); (hostAt 1000, finger 1 30 40)]
                   1000 (start 0 noConfig) Hf eq_refl _)).
  intros ht [<- | [<- | []]]; reflexivity.
Defined.

Lemma X7_witness :
  changedTouches noTouches = None /\
  touchHandler pathOf noTouches pendingPage = pendingPage.
Proof.
  split; [reflexivity|].
  apply (X7_touch_bounds pathOf noTouches pendingPage). now left.
Defined.

Lemma X8_witness :
  forallb isCapture [Dom (hostAt 31000) (mouseMove 5 6); Touch (twoFingers 32000)] = true /\
  sent (touchHandler pathOf (twoFingers 32000)
          (eventHandler pathOf (hostAt 31000) (mouseMove 5 6) establishedPage))
  = sent establishedPage.
Proof.
  split; [reflexivity|].
  apply (X8_capture_sends_nothing pathOf
           [Dom (hostAt 31000) (mouseMove 5 6); Touch (twoFingers 32000)]
           establishedPage _ eq_refl eq_refl).
Defined.

Lemma X9_witness :
  run pathOf (start 0 (withSampling 100)) firstPost = Some sampledPage /\
  settings sampledPage = merged (withSampling 100) /\
  samplingFreq (settings sampledPage) = 100.
Proof.
  split; [reflexivity|]. split; [|reflexivity].
  apply (X9_settings_in_force pathOf 0 (withSampling 100) firstPost sampledPage eq_refl).
Defined.

Lemma X10_witness :
  run pathOf (start 0 noConfig)
    (firstPost ++ [Response "42"; Dom (hostAt 31000) (mouseMove 5 6);
                   Dom (hostAt 32000) (mouseMove 7 8)]) = Some twoRowsPage /\
  timeouts twoRowsPage = [] /\ intervals twoRowsPage = [30000].
Proof.
  destruct (X10_timers_in_step pathOf 0 noConfig
              (firstPost ++ [Response "42"; Dom (hostAt 31000) (mouseMove 5 6);
                             Dom (hostAt 32000) (mouseMove 7 8)])
              twoRowsPage eq_refl eq_refl) as (_ & _ & H3).
  split; [reflexivity|]. split; [reflexivity | exact H3].
Defined.


Lemma X12_witness :
  run pathOf (start 0 noConfig) wholeVisit = Some endedPage /\
  List.length (sent endedPage) = 2%nat /\ syncs (sent endedPage) = 1%nat.
Proof.
  split; [reflexivity|]. split; [reflexivity|].
  exact (X12_synchronous_only_at_unload pathOf wholeVisit (start 0 noConfig)
           endedPage eq_refl).
Defined.

Lemma X13_witness :
  run pathOf (start 0 noConfig) (lateVisit ++ [Response "0"; IntervalFires])
  = Some (appendData true None resetPage) /\
  (forall r rest, sent (appendData true None resetPage) = r :: rest ->
   exists h a s rows, r = initRequest h a s rows) /\
  (inits (sent (appendData true None resetPage)) <= 2)%nat.
Proof.
  destruct (X13_init_requests pathOf 0 noConfig
              (lateVisit ++ [Response "0"; IntervalFires])
              (appendData true None resetPage) eq_refl) as (H1 & H2).
  split; [reflexivity|]. split; [exact H1 | exact H2].
Defined.

Lemma X14_witness :
  run pathOf pendingPage
    [Response "42"; Dom (hostAt 31000) (mouseMove 5 6);
     Dom (hostAt 32000) (mouseMove 7 8)] = Some twoRowsPage /\
  exists reqs batches,
    sent twoRowsPage = (sent pendingPage ++ reqs)%list /\
    Forall2 carries reqs batches /\
    (info pendingPage
     ++ trail pathOf pendingPage
          [Response "42"; Dom (hostAt 31000) (mouseMove 5 6);
           Dom (hostAt 32000) (mouseMove 7 8)])%list
    = (List.concat batches ++ info twoRowsPage)%list.
Proof.
  split; [reflexivity|].
  apply (X14_rows_conserved pathOf
           [Response "42"; Dom (hostAt 31000) (mouseMove 5 6);
            Dom (hostAt 32000) (mouseMove 7 8)] pendingPage twoRowsPage eq_refl).
Defined.

Lemma X15_witness :
  run pathOf (start 0 noConfig)
    ((firstPost ++ [Response "42"; Dom (hostAt 31000) (mouseMove 5 6);
                    Dom (hostAt 32000) (mouseMove 7 8)])
     ++ [Unload (hostAt 40000) None]) = Some endedPage /\
  info endedPage = [] /\
  trail pathOf (start 0 noConfig) wholeVisit
  = ["0 29000 3 4 mousemove /html/body/div"; "0 31000 5 6 mousemove /html/body/div";
     "0 32000 7 8 mousemove /html/body/div"] /\
  exists batches,
    Forall2 carries (sent endedPage) batches /\
    List.concat batches = trail pathOf (start 0 noConfig) wholeVisit.
Proof.
  destruct (X15_all_rows_handed_over pathOf 0 noConfig
              (firstPost ++ [Response "42"; Dom (hostAt 31000) (mouseMove 5 6);
                             Dom (hostAt 32000) (mouseMove 7 8)])
              (hostAt 40000) None endedPage eq_refl) as (H1 & H2).
  split; [reflexivity|]. split; [exact H1|].
  split; [reflexivity | exact H2].
Defined.

Lemma X16_witness :
  parseInt "42" = Num 42 /\ parseInt "43" = Num 43 /\
  exists p',
    run pathOf (record noConfig (start 0 noConfig))
      [TimeoutFires (hostAt 30000); TimeoutFires (hostAt 30001);
       Response "42"; Response "43"] = Some p' /\
    inits (sent p') = 2%nat /\ uid p' = Num 43 /\
    intervals p' = [period p'; period p'].
Proof.
  assert (H42 : 42 <> 0) by discriminate.
  assert (H43 : 43 <> 0) by discriminate.
  split; [reflexivity|]. split; [reflexivity|].
  apply (X16_record_twice pathOf 0 noConfig noConfig (hostAt 30000) (hostAt 30001)
           "42" "43" 42 43 eq_refl H42 eq_refl H43).
Defined.

Lemma X17_witness :
  forallb isCapture shortVisit = true /\
  run pathOf (start 0 noConfig) (shortVisit ++ [Unload (hostAt 30000) (Some "7")])
  = Some shortEnded /\
  sent shortEnded
  = [initRequest (hostAt 30000) false defaults ["0 29000 3 4 mousemove /html/body/div"]].
Proof.
  split; [reflexivity|]. split; [reflexivity|].
  exact (X17_short_visit pathOf 0 noConfig shortVisit (hostAt 30000) (Some "7")
           shortEnded eq_refl eq_refl).
Defined.
